(** * IPTV Panel Pro back end (server.js)

    A shallow embedding of the Express/SQLite back end: the five tables
    of [initDatabase], the authentication middleware and the route
    handlers, followed by the properties of the specification that can
    be settled on them.

    Conventions of the embedding.
    - The SQLite file is a record [DB] of five tables; a handler is a
      function from the database to an outcome and a new database.
    - node-sqlite3 calls ([db.get], [db.all], [db.run]) are written in
      continuation-passing style, as in the source.  The [n]-th call of
      a request fails when the fault plan [fault n] is [true]; the
      callback then receives an error and no row.
    - Times are integers, milliseconds since the Unix epoch.  An ISO
      string produced by [toISOString] is represented by the time value
      it denotes.
    - Columns hold values of their declared type (SQLite's affinity
      conversions are outside the model); a nullable column is an
      [option].  A package price, which the code stores and returns
      without computing on it, is the rational it denotes.  Transaction
      amounts and Julian day numbers, on which SQLite computes, are
      IEEE binary64 doubles; the accumulation performed by SUM differs
      between versions of SQLite and is a parameter.
    - Statements issued from inside a callback run in node-sqlite3's
      parallel mode: the order in which the engine executes them is
      not the order in which they were issued, and is a parameter. *)

From Stdlib Require Import ZArith List String Ascii Bool QArith Lia DecimalString.
From Stdlib Require Import Permutation Sorted SpecFloat.
Import ListNotations.
Local Open Scope string_scope.
Local Open Scope list_scope.
Local Open Scope Z_scope.

(** ** SQL: three-valued conditions, tables, AUTOINCREMENT *)

Module Sql.

  (** [a = b] in SQL: NULL when either side is NULL. *)
Definition eq_int (a b : option Z) : option bool :=
    match a, b with
    | Some x, Some y => Some (x =? y)
    | _, _ => None
    end.

Definition eq_text (a b : option string) : option bool :=
    match a, b with
    | Some x, Some y => Some (String.eqb x y)
    | _, _ => None
    end.

Definition ge_int (a b : option Z) : option bool :=
    match a, b with
    | Some x, Some y => Some (y <=? x)
    | _, _ => None
    end.

  (** [a AND b] in SQL. *)
Definition and3 (a b : option bool) : option bool :=
    match a, b with
    | Some false, _ => Some false
    | _, Some false => Some false
    | Some true, Some true => Some true
    | _, _ => None
    end.

  (** A WHERE clause keeps a row only when its condition is true. *)
Definition holds (c : option bool) : bool :=
    match c with
    | Some true => true
    | _ => false
    end.

  (** A table with the [sqlite_sequence] entry of its AUTOINCREMENT key. *)
Record table (A : Type) : Type := Table { rows : list A; seq : Z }.
Arguments Table {A} _ _.
Arguments rows {A} _.
Arguments seq {A} _.

Definition empty {A : Type} : table A := Table [] 0.

Section Ops.
Context {A : Type} (id_of : A -> Z).

Definition max_rowid (l : list A) : Z :=
      fold_right (fun r m => Z.max (id_of r) m) 0 l.

    (** AUTOINCREMENT: one more than the largest key ever used. *)
Definition next_rowid (t : table A) : Z :=
      Z.max (seq t) (max_rowid (rows t)) + 1.

    (** INSERT of the row built by [mk] from the fresh key; returns the
        table and [lastID]. *)
Definition insert (mk : Z -> A) (t : table A) : table A * Z :=
      let k := next_rowid t in
      (Table (rows t ++ [mk k]) k, k).

    (** SELECT ... WHERE cond. *)
Definition select (cond : A -> option bool) (t : table A) : list A :=
      filter (fun r => holds (cond r)) (rows t).

    (** SELECT COUNT( * ) ... WHERE cond: one pass with a counter. *)
Definition count (cond : A -> option bool) (l : list A) : Z :=
      fold_left (fun n r => if holds (cond r) then n + 1 else n) l 0.

    (** UPDATE ... SET ... WHERE id = ?; returns the table and [changes]. *)
Definition update (set : A -> A) (id : Z) (t : table A) : table A * Z :=
      (Table (map (fun r => if id_of r =? id then set r else r) (rows t)) (seq t),
       Z.of_nat (List.length (filter (fun r => id_of r =? id) (rows t)))).

    (** DELETE ... WHERE id = ?; returns the table and [changes]. *)
Definition delete (id : Z) (t : table A) : table A * Z :=
      (Table (filter (fun r => negb (id_of r =? id)) (rows t)) (seq t),
       Z.of_nat (List.length (filter (fun r => id_of r =? id) (rows t)))).
End Ops.

  (** ORDER BY key DESC, NULL keys last (NULL is the smallest value in
      SQLite); rows with equal keys keep their table order. *)
Section Order.
Context {A : Type} (key : A -> option Z).

Definition before (a b : A) : bool :=
      match key a, key b with
      | Some x, Some y => y <=? x
      | Some _, None => true
      | None, Some _ => false
      | None, None => true
      end.

Fixpoint place (a : A) (l : list A) : list A :=
      match l with
      | [] => [a]
      | b :: l' => if before a b then a :: l else b :: place a l'
      end.

Definition order_by_desc (l : list A) : list A :=
      fold_right place [] l.
End Order.

End Sql.

Import Sql.

(** IEEE 754 binary64: the REAL of SQLite and the number of JavaScript. *)
Definition double : Type := spec_float.

(** ** The schema of [initDatabase] *)

Record admin : Type := Admin {
  a_id : Z;
  a_username : string;
  a_password : string;
  a_email : option string;
  a_created_at : option Z }.

Record package : Type := Package {
  p_id : Z;
  p_name : string;
  p_channels : Z;
  p_duration : Z;
  p_price : Q;
  p_status : option string;
  p_created_at : option Z }.

Record user : Type := User {
  u_id : Z;
  u_username : string;
  u_password : string;
  u_package_id : option Z;
  u_device : option string;
  u_status : option string;
  u_expiry_date : option Z;
  u_last_seen : option Z;
  u_created_at : option Z }.

Record channel : Type := Channel {
  ch_id : Z;
  ch_name : string;
  ch_url : string;
  ch_logo : option string;
  ch_category : option string;
  ch_package_id : option Z;
  ch_created_at : option Z }.

Record transaction : Type := Transaction {
  t_id : Z;
  t_user_id : option Z;
  t_package_id : option Z;
  t_amount : option double;
  t_status : option string;
  t_created_at : option Z }.

Record DB : Type := Db {
  admins : table admin;
  packages : table package;
  users : table user;
  channels : table channel;
  transactions : table transaction }.

Definition empty_db : DB := Db empty empty empty empty empty.

Definition with_admins (t : table admin) (db : DB) : DB :=
  Db t (packages db) (users db) (channels db) (transactions db).
Definition with_packages (t : table package) (db : DB) : DB :=
  Db (admins db) t (users db) (channels db) (transactions db).
Definition with_users (t : table user) (db : DB) : DB :=
  Db (admins db) (packages db) t (channels db) (transactions db).
Definition with_channels (t : table channel) (db : DB) : DB :=
  Db (admins db) (packages db) (users db) t (transactions db).

(** ** Time *)

Definition ms_per_day : Z := 24 * 60 * 60 * 1000.

(** [datetime('now')] and CURRENT_TIMESTAMP have a resolution of one
    second. *)
Definition datetime_now (now : Z) : Z := now - now mod 1000.

(** The UTC calendar day of a time, as [date(...)] isolates it. *)
Definition date_of (t : Z) : Z := t / ms_per_day.

(** [new Date(t).toISOString()]: a RangeError outside the Date range. *)
Definition max_time_value : Z := 8640000000000000.

Definition toISOString (t : Z) : option Z :=
  if (- max_time_value <=? t) && (t <=? max_time_value) then Some t else None.

(** Arithmetic on doubles, as SQLite and JavaScript perform it. *)
Definition double_of_int (z : Z) : double := binary_normalize 53 1024 z 0 false.
Definition double_div : double -> double -> double := SFdiv 53 1024.
Definition double_sub : double -> double -> double := SFsub 53 1024.
Definition double_mul : double -> double -> double := SFmul 53 1024.

(** The rational a finite double denotes; NaN (which SQLite turns into
    NULL) and the infinities denote none. *)
Definition double_value (x : double) : option Q :=
  match x with
  | S754_zero _ => Some 0%Q
  | S754_finite s m e =>
      let q := match e with
               | Zneg p => Qmake (Zpos m) (Pos.pow 2 p)
               | _ => inject_Z (Zpos m * 2 ^ e)
               end in
      Some (if s then Qopp q else q)
  | S754_infinity _ => None
  | S754_nan => None
  end.

(** The Julian day of a time in milliseconds: SQLite's [iJD], which
    counts from noon of 24 November 4714 BC and is valid up to the end
    of the year 9999. *)
Definition iJD (t : Z) : Z := t + 210866760000000.

Definition valid_julian_day (i : Z) : bool :=
  (0 <=? i) && (i <=? 464269060799999).

(** [julianday(t)]: [iJD / 86400000.0], NULL for a time out of range. *)
Definition julianday (t : Z) : option double :=
  if valid_julian_day (iJD t)
  then Some (double_div (double_of_int (iJD t)) (double_of_int 86400000))
  else None.

(** [CAST(q AS INTEGER)] truncates toward zero. *)
Definition cast_integer (q : Q) : Z := Z.quot (Qnum q) (Zpos (Qden q)).

Definition Qlt_bool (x y : Q) : bool := negb (Qle_bool y x).

(** The decimal text of an integer, as [||] renders it. *)
Definition text_of_int (z : Z) : string := NilZero.string_of_int (Z.to_int z).

(** ** Responses and the node-sqlite3 interface *)

Record stats : Type := Stats {
  totalRevenue : double;
  todayRevenue : double;
  activeUsers : Z;
  newUsersThisWeek : Z;
  totalChannels : Z;
  totalPackages : Z }.

Record activity_row : Type := ActivityRow {
  ar_id : Z;
  ar_username : string;
  ar_device : option string;
  ar_status : option string;
  ar_lastSeen : option string }.

(** [p.*] and the derived [subscribers] column. *)
Record package_row : Type := PackageRow {
  pr_id : Z;
  pr_name : string;
  pr_channels : Z;
  pr_duration : Z;
  pr_price : Q;
  pr_status : option string;
  pr_created_at : option Z;
  pr_subscribers : Z }.

(** [u.*] and the joined [package_name] column. *)
Record user_row : Type := UserRow {
  ur_id : Z;
  ur_username : string;
  ur_password : string;
  ur_package_id : option Z;
  ur_device : option string;
  ur_status : option string;
  ur_expiry_date : option Z;
  ur_last_seen : option Z;
  ur_created_at : option Z;
  ur_package_name : option string }.

Inductive payload : Type :=
| PError (error : string)
| PMessage (message : string)
| PStats (s : stats)
| PActivity (l : list activity_row)
| PPackages (l : list package_row)
| PUsers (l : list user_row)
| PUserCreated (id : Z) (username : option string) (package_id : option Z)
               (device : option string) (status : string)
| PChannels (l : list channel).

Inductive js_exception : Type := TypeError | RangeError.

(** What a request ends in: a response, or an exception thrown inside a
    database callback, which nothing catches (no response is sent). *)
Inductive outcome : Type :=
| Response (status : Z) (body : payload)
| Uncaught (e : js_exception).

Definition handler : Type := DB -> outcome * DB.

Definition respond (status : Z) (body : payload) : handler :=
  fun db => (Response status body, db).

(** [res.json(body)] without [res.status]: 200. *)
Definition json (body : payload) : handler := respond 200 body.

Definition throw (e : js_exception) : handler :=
  fun db => (Uncaught e, db).

Inductive sqlite_error : Type := SQLITE_IOERR | SQLITE_CONSTRAINT.

(** [this] in the callback of [db.run]; [lastID] is set by an INSERT
    and read by no other callback. *)
Record run_info : Type := RunInfo { lastID : Z; changes : Z }.

Section Sqlite3.
  (** [fault n]: the [n]-th database call of the request fails. *)
Variable fault : nat -> bool.

  (** [db.get(sql, params, cb)]: [cb(err, row)], [row] undefined when
      the query fails or selects nothing. *)
Definition db_get {R : Type} (n : nat) (query : DB -> option R)
      (cb : option sqlite_error -> option R -> handler) : handler :=
    fun db =>
      if fault n then cb (Some SQLITE_IOERR) None db
      else cb None (query db) db.

  (** [db.all(sql, params, cb)]: [cb(err, rows)]. *)
Definition db_all {R : Type} (n : nat) (query : DB -> list R)
      (cb : option sqlite_error -> list R -> handler) : handler :=
    fun db =>
      if fault n then cb (Some SQLITE_IOERR) [] db
      else cb None (query db) db.

  (** [db.run(sql, params, cb)]: the statement either violates a
      constraint ([None]) or yields the new database with [lastID] and
      [changes]. *)
Definition db_run (n : nat) (stmt : DB -> option (DB * run_info))
      (cb : option sqlite_error -> run_info -> handler) : handler :=
    fun db =>
      if fault n then cb (Some SQLITE_IOERR) (RunInfo 0 0) db
      else match stmt db with
           | None => cb (Some SQLITE_CONSTRAINT) (RunInfo 0 0) db
           | Some (db', info) => cb None info db'
           end.
End Sqlite3.

(** ** Statements *)

(** The column default of [users.status] and [packages.status]. *)
Definition status_default : option string := Some "active".

(** INSERT INTO users: username and password NOT NULL, username UNIQUE;
    [created_at] defaults to CURRENT_TIMESTAMP. *)
Definition insert_user (now : Z) (username password : option string)
    (package_id : option Z) (device status : option string)
    (expiry_date last_seen : option Z) (t : table user)
    : option (table user * Z) :=
  match username, password with
  | Some n, Some pw =>
      if existsb (fun u => String.eqb (u_username u) n) (rows t) then None
      else Some (insert u_id
                   (fun k => User k n pw package_id device status expiry_date
                                  last_seen (Some (datetime_now now))) t)
  | _, _ => None
  end.

(** INSERT INTO admins (username, password, email). *)
Definition insert_admin (now : Z) (username password : string)
    (email : option string) (t : table admin) : option (table admin * Z) :=
  if existsb (fun a => String.eqb (a_username a) username) (rows t) then None
  else Some (insert a_id
               (fun k => Admin k username password email
                               (Some (datetime_now now))) t).

(** INSERT INTO packages (name, channels, duration, price). *)
Definition insert_package (now : Z) (name : string) (chans duration : Z)
    (price : Q) (t : table package) : table package * Z :=
  insert p_id
    (fun k => Package k name chans duration price status_default
                      (Some (datetime_now now))) t.

Record package_body : Type := PackageBody {
  pb_name : option string;
  pb_channels : option Z;
  pb_duration : option Z;
  pb_price : option Q;
  pb_status : option string }.

Record user_body : Type := UserBody {
  ub_username : option string;
  ub_password : option string;
  ub_package_id : option Z;
  ub_device : option string;
  ub_status : option string }.

(** UPDATE packages SET name, channels, duration, price, status WHERE
    id = ?: the NOT NULL columns reject a NULL on a row that matches. *)
Definition update_package (b : package_body) (id : Z) (db : DB)
    : option (DB * run_info) :=
  match pb_name b, pb_channels b, pb_duration b, pb_price b with
  | Some n, Some c, Some d, Some pr =>
      let (t, k) :=
        update p_id
          (fun p => Package (p_id p) n c d pr (pb_status b) (p_created_at p))
          id (packages db) in
      Some (with_packages t db, RunInfo 0 k)
  | _, _, _, _ =>
      if existsb (fun p => p_id p =? id) (rows (packages db)) then None
      else Some (db, RunInfo 0 0)
  end.

Definition delete_package (id : Z) (db : DB) : option (DB * run_info) :=
  let (t, k) := delete p_id id (packages db) in
  Some (with_packages t db, RunInfo 0 k).

(** UPDATE users SET package_id = ?, status = ?, device = ? WHERE id = ? *)
Definition set_user (b : user_body) (u : user) : user :=
  User (u_id u) (u_username u) (u_password u)
       (ub_package_id b) (ub_device b) (ub_status b)
       (u_expiry_date u) (u_last_seen u) (u_created_at u).

Definition update_user (b : user_body) (id : Z) (db : DB)
    : option (DB * run_info) :=
  let (t, k) := update u_id (set_user b) id (users db) in
  Some (with_users t db, RunInfo 0 k).

Definition delete_user (id : Z) (db : DB) : option (DB * run_info) :=
  let (t, k) := delete u_id id (users db) in
  Some (with_users t db, RunInfo 0 k).

Definition delete_channel (id : Z) (db : DB) : option (DB * run_info) :=
  let (t, k) := delete ch_id id (channels db) in
  Some (with_channels t db, RunInfo 0 k).

(** ** JavaScript helpers *)

(** [x || 0] on a number. *)
Definition or_zero (n : Z) : Z := if n =? 0 then 0 else n.

(** [x || 0] on a REAL aggregate: null (nothing was summed) and both
    zeros are falsy and give 0, any other number is kept. *)
Definition or_zero_real (x : option double) : double :=
  match x with
  | Some (S754_finite s m e) => S754_finite s m e
  | Some (S754_infinity s) => S754_infinity s
  | _ => S754_zero false
  end.

(** [row.f]: reading a property of [undefined] throws a TypeError. *)
Definition field {R : Type} (row : option R) (k : R -> handler) : handler :=
  match row with
  | None => throw TypeError
  | Some r => k r
  end.

(** [s.split(c)] *)
Fixpoint split (c : ascii) (s : string) : list string :=
  match s with
  | EmptyString => [EmptyString]
  | String a s' =>
      if Ascii.eqb a c then EmptyString :: split c s'
      else match split c s' with
           | w :: ws => String a w :: ws
           | [] => [String a EmptyString]
           end
  end.

(** A string is truthy unless it is undefined or empty. *)
Definition truthy (s : option string) : bool :=
  match s with
  | Some (String _ _) => true
  | _ => false
  end.

(** SUM(x) over a REAL column: NULL values are skipped and the sum of
    no value is NULL.  The values left are accumulated by SQLite in
    doubles, by plain addition or by a compensated summation depending
    on its version, so the accumulation [sum_real] is a parameter; a
    result that is not a number is handed over as NULL. *)
Definition sql_sum (sum_real : list double -> double)
    (l : list (option double)) : option double :=
  match flat_map (fun x => match x with Some v => [v] | None => [] end) l with
  | [] => None
  | values =>
      match sum_real values with
      | S754_nan => None
      | total => Some total
      end
  end.

(** ** Order of execution

    [arrange k l] is the [k]-th arrangement of [l]: every permutation
    of [l] is [arrange k l] for some [k], and [arrange 0 l = l]. *)

Definition insert_at {A : Type} (i : nat) (a : A) (l : list A) : list A :=
  firstn i l ++ a :: skipn i l.

Fixpoint arrange {A : Type} (k : nat) (l : list A) : list A :=
  match l with
  | [] => []
  | a :: l' =>
      insert_at (Nat.modulo k (S (List.length l'))) a
                (arrange (Nat.div k (S (List.length l'))) l')
  end.

(** ** Tokens *)

Record claims : Type := Claims {
  c_id : Z;
  c_username : string;
  c_type : option string }.

Inductive jwt_error : Type :=
| TokenExpiredError
| JsonWebTokenError
| NotBeforeError.

Record request : Type := Request {
  authorization : option string;
  req_user : option claims }.

(** ** The server *)

Section Server.
(** [bcrypt.hash(data, 10)], [jwt.verify(token, secret)] and the
    accumulation of SQLite's SUM belong to libraries outside the
    repository. *)
Variable bcrypt_hash : string -> string.
Variable jwt_verify : string -> string -> jwt_error + claims.
Variable JWT_SECRET : string.
Variable fault : nat -> bool.
Variable sum_real : list double -> double.

(** *** initDatabase: the seeds (the CREATE TABLE IF NOT EXISTS
    statements leave existing tables as they are) *)

Definition samplePackages : list (string * Z * Z * Q) :=
  [ ("Basic Plan", 150, 30, 15%Q);
    ("Premium Plan", 300, 30, 30%Q);
    ("VIP Plan", 500, 30, 50%Q) ].

Definition sampleUsers (hash : string)
    : list (string * string * Z * string * string) :=
  [ ("user001", hash, 1, "Android", "active");
    ("user002", hash, 2, "iOS", "active");
    ("user003", hash, 3, "Smart TV", "active");
    ("user004", hash, 1, "Android", "expired") ].

Definition seed_admin (now : Z) (db : DB) : DB :=
  match find (fun a => String.eqb (a_username a) "admin") (rows (admins db)) with
  | Some _ => db
  | None =>
      match insert_admin now "admin" (bcrypt_hash "admin123")
                         (Some "admin@iptv.com") (admins db) with
      | Some (t, _) => with_admins t db
      | None => db
      end
  end.

(** The INSERTs of a [forEach] are issued from a callback, after
    [db.serialize] has returned: the engine executes them in some order
    [arrange order l] of the array. *)
Definition insert_sample_package (now : Z) (d : DB)
    (pkg : string * Z * Z * Q) : DB :=
  let '(name, chans, duration, price) := pkg in
  with_packages
    (fst (insert_package now name chans duration price (packages d))) d.

Definition seed_packages (order : nat) (now : Z) (db : DB) : DB :=
  if count (fun _ => Some true) (rows (packages db)) =? 0 then
    fold_left (insert_sample_package now) (arrange order samplePackages) db
  else db.

Definition insert_sample_user (now : Z) (d : DB)
    (user : string * string * Z * string * string) : DB :=
  let '(username, hash, package_id, device, status) := user in
  let expiryDate :=
    if String.eqb status "active"
    then now + 30 * 24 * 60 * 60 * 1000
    else now - 2 * 24 * 60 * 60 * 1000 in
  match insert_user now (Some username) (Some hash) (Some package_id)
                    (Some device) (Some status) (Some expiryDate)
                    (Some (datetime_now now)) (users d) with
  | Some (t, _) => with_users t d
  | None => d
  end.

Definition seed_users (order : nat) (now : Z) (db : DB) : DB :=
  if count (fun _ => Some true) (rows (users db)) =? 0 then
    fold_left (insert_sample_user now)
              (arrange order (sampleUsers (bcrypt_hash "user123"))) db
  else db.

Definition initDatabase (packages_order users_order : nat) (now : Z) (db : DB)
    : DB :=
  seed_users users_order now
    (seed_packages packages_order now (seed_admin now db)).

(** *** authenticateToken *)

Definition authenticateToken (req : request) (next : request -> handler)
    : handler :=
  let authHeader := authorization req in
  let token :=
    match authHeader with
    | Some h => if truthy authHeader then nth_error (split " " h) 1
                else authHeader
    | None => None
    end in
  match token with
  | Some tok =>
      if truthy token then
        match jwt_verify tok JWT_SECRET with
        | inl _ => respond 403 (PError "Invalid or expired token")
        | inr user => next (Request (authorization req) (Some user))
        end
      else respond 401 (PError "Access token required")
  | None => respond 401 (PError "Access token required")
  end.

(** *** GET /api/dashboard/stats *)

Definition completed (t : transaction) : option bool :=
  eq_text (t_status t) (Some "completed").

Definition get_stats (now : Z) : handler :=
  db_get fault 0
    (fun db => Some (sql_sum sum_real
                       (map t_amount (select completed (transactions db)))))
    (fun _ row => field row (fun total =>
  db_get fault 1
    (fun db => Some (sql_sum sum_real (map t_amount
       (select (fun t => and3 (completed t)
                              (eq_int (option_map date_of (t_created_at t))
                                      (Some (date_of now))))
               (transactions db)))))
    (fun _ row => field row (fun today =>
  db_get fault 2
    (fun db => Some (count (fun u => eq_text (u_status u) (Some "active"))
                           (rows (users db))))
    (fun _ row => field row (fun active =>
  db_get fault 3
    (fun db => Some (count (fun u => ge_int (option_map date_of (u_created_at u))
                                            (Some (date_of now - 7)))
                           (rows (users db))))
    (fun _ row => field row (fun week =>
  db_get fault 4
    (fun db => Some (count (fun _ => Some true) (rows (channels db))))
    (fun _ row => field row (fun chans =>
  db_get fault 5
    (fun db => Some (count (fun _ => Some true) (rows (packages db))))
    (fun _ row => field row (fun pkgs =>
  json (PStats (Stats (or_zero_real total) (or_zero_real today)
                      (or_zero active) (or_zero week)
                      (or_zero chans) (or_zero pkgs))))))))))))))).

(** *** GET /api/dashboard/activity *)

(** [julianday('now') - julianday(last_seen)], NULL when either is. *)
Definition elapsed_days (now : Z) (last_seen : option Z) : option double :=
  match julianday now, last_seen with
  | Some a, Some t =>
      match julianday t with
      | Some b => Some (double_sub a b)
      | None => None
      end
  | _, _ => None
  end.

(** [x * n] for a REAL [x] and an integer literal [n]. *)
Definition times (x : option double) (n : Z) : option double :=
  option_map (fun d => double_mul d (double_of_int n)) x.

(** The value of a REAL expression, for a comparison with an integer
    and for CAST: both take the double exactly. *)
Definition real_value (x : option double) : option Q :=
  match x with
  | Some d => double_value d
  | None => None
  end.

(** The CASE expression of the query. *)
Definition lastSeen (now : Z) (last_seen : option Z) : option string :=
  let days := elapsed_days now last_seen in
  let minutes := times (times days 24) 60 in
  let hours := times days 24 in
  let ago (x : option double) (unit : string) : option string :=
    option_map (fun q => (text_of_int (cast_integer q) ++ unit)%string)
               (real_value x) in
  if holds (option_map (fun m => Qlt_bool m 60) (real_value minutes)) then
    ago minutes " min ago"
  else if holds (option_map (fun h => Qlt_bool h 24) (real_value hours)) then
    ago hours " hours ago"
  else
    ago days " days ago".

Definition activity_of (now : Z) (u : user) : activity_row :=
  ActivityRow (u_id u) (u_username u) (u_device u) (u_status u)
              (lastSeen now (u_last_seen u)).

Definition select_activity (now : Z) (db : DB) : list activity_row :=
  map (activity_of now)
      (firstn 10 (order_by_desc u_last_seen (rows (users db)))).

Definition get_activity (now : Z) : handler :=
  db_all fault 0 (select_activity now)
    (fun err rows =>
       match err with
       | Some _ => respond 500 (PError "Database error")
       | None => json (PActivity rows)
       end).

(** *** Packages *)

(** The correlated subquery
    [(SELECT COUNT( * ) FROM users WHERE package_id = p.id AND status = 'active')]. *)
Definition subscribers (p : package) (us : list user) : Z :=
  count (fun u => and3 (eq_int (u_package_id u) (Some (p_id p)))
                       (eq_text (u_status u) (Some "active"))) us.

Definition package_row_of (us : list user) (p : package) : package_row :=
  PackageRow (p_id p) (p_name p) (p_channels p) (p_duration p) (p_price p)
             (p_status p) (p_created_at p) (subscribers p us).

Definition select_packages (db : DB) : list package_row :=
  map (package_row_of (rows (users db))) (rows (packages db)).

Definition get_packages : handler :=
  db_all fault 0 select_packages
    (fun err rows =>
       match err with
       | Some _ => respond 500 (PError "Database error")
       | None => json (PPackages rows)
       end).

Definition put_packages (id : Z) (b : package_body) : handler :=
  db_run fault 0 (update_package b id)
    (fun err this =>
       match err with
       | Some _ => respond 500 (PError "Database error")
       | None =>
           if changes this =? 0 then respond 404 (PError "Package not found")
           else json (PMessage "Package updated successfully")
       end).

Definition delete_packages (id : Z) : handler :=
  db_run fault 0 (delete_package id)
    (fun err this =>
       match err with
       | Some _ => respond 500 (PError "Database error")
       | None =>
           if changes this =? 0 then respond 404 (PError "Package not found")
           else json (PMessage "Package deleted successfully")
       end).

(** *** Users *)

Definition user_row_of (u : user) (package_name : option string) : user_row :=
  UserRow (u_id u) (u_username u) (u_password u) (u_package_id u)
          (u_device u) (u_status u) (u_expiry_date u) (u_last_seen u)
          (u_created_at u) package_name.

(** [users u LEFT JOIN packages p ON u.package_id = p.id] for one user. *)
Definition left_join (ps : list package) (u : user) : list user_row :=
  match filter (fun p => holds (eq_int (u_package_id u) (Some (p_id p)))) ps with
  | [] => [user_row_of u None]
  | matched => map (fun p => user_row_of u (Some (p_name p))) matched
  end.

Definition select_users (db : DB) : list user_row :=
  order_by_desc ur_created_at
    (flat_map (left_join (rows (packages db))) (rows (users db))).

Definition get_users : handler :=
  db_all fault 0 select_users
    (fun err rows =>
       match err with
       | Some _ => respond 500 (PError "Database error")
       | None => json (PUsers rows)
       end).

(** [SELECT duration FROM packages WHERE id = ?] *)
Definition select_duration (package_id : option Z) (db : DB) : option Z :=
  option_map p_duration
    (hd_error (select (fun p => eq_int (Some (p_id p)) package_id)
                      (packages db))).

(** [INSERT INTO users (username, password, package_id, device, expiry_date)]:
    status takes its column default, last_seen stays NULL. *)
Definition insert_subscriber (now : Z) (b : user_body)
    (hashedPassword : string) (expiryDate : Z) (db : DB)
    : option (DB * run_info) :=
  match insert_user now (ub_username b) (Some hashedPassword)
                    (ub_package_id b) (ub_device b) status_default
                    (Some expiryDate) None (users db) with
  | Some (t, k) => Some (with_users t db, RunInfo k 1)
  | None => None
  end.

Definition post_users (now : Z) (b : user_body) : handler :=
  match ub_password b with
  | None => respond 500 (PError "Server error")
  | Some password =>
      let hashedPassword := bcrypt_hash password in
      db_get fault 0 (select_duration (ub_package_id b))
        (fun _ pkg => field pkg (fun duration =>
           match toISOString
                   (now + (if duration =? 0 then 30 else duration)
                          * 24 * 60 * 60 * 1000) with
           | None => throw RangeError
           | Some expiryDate =>
               db_run fault 1 (insert_subscriber now b hashedPassword expiryDate)
                 (fun err this =>
                    match err with
                    | Some _ => respond 500 (PError "Database error")
                    | None =>
                        json (PUserCreated (lastID this) (ub_username b)
                                (ub_package_id b) (ub_device b) "active")
                    end)
           end))
  end.

Definition put_users (id : Z) (b : user_body) : handler :=
  db_run fault 0 (update_user b id)
    (fun err _ =>
       match err with
       | Some _ => respond 500 (PError "Database error")
       | None => json (PMessage "User updated successfully")
       end).

Definition delete_users (id : Z) : handler :=
  db_run fault 0 (delete_user id)
    (fun err _ =>
       match err with
       | Some _ => respond 500 (PError "Database error")
       | None => json (PMessage "User deleted successfully")
       end).

(** *** Channels *)

Definition get_channels (packageId : Z) : handler :=
  db_all fault 0
    (fun db => select (fun c => eq_int (ch_package_id c) (Some packageId))
                      (channels db))
    (fun err rows =>
       match err with
       | Some _ => respond 500 (PError "Database error")
       | None => json (PChannels rows)
       end).

Definition delete_channels (id : Z) : handler :=
  db_run fault 0 (delete_channel id)
    (fun err _ =>
       match err with
       | Some _ => respond 500 (PError "Database error")
       | None => json (PMessage "Channel deleted successfully")
       end).

(** *** Routing

    The routes whose handlers are embedded above.  The two logins,
    GET /api/packages/:id, POST /api/packages and POST /api/channels
    take no part in the properties below. *)

Inductive route : Type :=
| GET_dashboard_stats
| GET_dashboard_activity
| GET_packages
| PUT_packages (id : Z) (b : package_body)
| DELETE_packages (id : Z)
| GET_users
| POST_users (b : user_body)
| PUT_users (id : Z) (b : user_body)
| DELETE_users (id : Z)
| GET_channels (packageId : Z)
| DELETE_channels (id : Z).

(** The controller registered for a route, after the guard. *)
Definition controller (now : Z) (r : route) : handler :=
  match r with
  | GET_dashboard_stats => get_stats now
  | GET_dashboard_activity => get_activity now
  | GET_packages => get_packages
  | PUT_packages id b => put_packages id b
  | DELETE_packages id => delete_packages id
  | GET_users => get_users
  | POST_users b => post_users now b
  | PUT_users id b => put_users id b
  | DELETE_users id => delete_users id
  | GET_channels packageId => get_channels packageId
  | DELETE_channels id => delete_channels id
  end.

(** Routes registered with [authenticateToken]. *)
Definition protected (r : route) : bool :=
  match r with
  | GET_channels _ => false
  | _ => true
  end.

Definition app (now : Z) (req : request) (r : route) : handler :=
  if protected r then authenticateToken req (fun _ => controller now r)
  else controller now r.

End Server.

(** ** The remaining routes

    The two logins, GET /api/packages/:id, POST /api/packages and
    POST /api/channels answer with bodies of their own. *)

Inductive reply : Type :=
| Plain (o : outcome)
| AdminSession (token : string) (id : Z) (username : string)
               (email : option string)
| UserSession (token : string) (id : Z) (username : string)
              (status : option string) (expiry_date : option Z)
| PackageFound (p : package)
| PackageCreated (id : Z) (name : option string) (chans duration : option Z)
                 (price : option Q) (status : string)
| ChannelCreated (id : Z) (name url logo category : option string)
                 (package_id : option Z).

Definition service : Type := DB -> reply * DB.

Definition reply_error (status : Z) (error : string) : service :=
  fun db => (Plain (Response status (PError error)), db).

Definition reply_json (r : reply) : service := fun db => (r, db).

(** [db.get] and [db.run] again, for callbacks that answer in [Ans]. *)
Section Sqlite3At.
Context {Ans : Type}.
Variable fault : nat -> bool.

Definition db_get_at {R : Type} (n : nat) (query : DB -> option R)
    (cb : option sqlite_error -> option R -> DB -> Ans) : DB -> Ans :=
  fun db =>
    if fault n then cb (Some SQLITE_IOERR) None db
    else cb None (query db) db.

Definition db_run_at (n : nat) (stmt : DB -> option (DB * run_info))
    (cb : option sqlite_error -> run_info -> DB -> Ans) : DB -> Ans :=
  fun db =>
    if fault n then cb (Some SQLITE_IOERR) (RunInfo 0 0) db
    else match stmt db with
         | None => cb (Some SQLITE_CONSTRAINT) (RunInfo 0 0) db
         | Some (db', info) => cb None info db'
         end.
End Sqlite3At.

Record login_body : Type := LoginBody {
  lb_username : option string;
  lb_password : option string }.

Record channel_body : Type := ChannelBody {
  cb_name : option string;
  cb_url : option string;
  cb_logo : option string;
  cb_category : option string;
  cb_package_id : option Z }.

(** [SELECT * FROM admins WHERE username = ?] through [db.get]. *)
Definition select_admin (username : option string) (db : DB) : option admin :=
  hd_error (select (fun a => eq_text (Some (a_username a)) username)
                   (admins db)).

(** [SELECT * FROM users WHERE username = ?] through [db.get]. *)
Definition select_user (username : option string) (db : DB) : option user :=
  hd_error (select (fun u => eq_text (Some (u_username u)) username)
                   (users db)).

(** [SELECT * FROM packages WHERE id = ?] through [db.get]. *)
Definition select_package (id : Z) (db : DB) : option package :=
  hd_error (select (fun p => eq_int (Some (p_id p)) (Some id)) (packages db)).

(** [UPDATE users SET last_seen = datetime("now") WHERE id = ?] *)
Definition seen (now : Z) (u : user) : user :=
  User (u_id u) (u_username u) (u_password u) (u_package_id u) (u_device u)
       (u_status u) (u_expiry_date u) (Some (datetime_now now))
       (u_created_at u).

Definition touch_last_seen (now id : Z) (db : DB) : option (DB * run_info) :=
  let (t, k) := update u_id (seen now) id (users db) in
  Some (with_users t db, RunInfo 0 k).

(** [INSERT INTO packages (name, channels, duration, price)] with the
    values of a request body: the four columns are NOT NULL. *)
Definition insert_package_body (now : Z) (b : package_body) (db : DB)
    : option (DB * run_info) :=
  match pb_name b, pb_channels b, pb_duration b, pb_price b with
  | Some n, Some c, Some d, Some pr =>
      let (t, k) := insert_package now n c d pr (packages db) in
      Some (with_packages t db, RunInfo k 1)
  | _, _, _, _ => None
  end.

(** [INSERT INTO channels (name, url, logo, category, package_id)]:
    name and url are NOT NULL. *)
Definition insert_channel (now : Z) (b : channel_body) (db : DB)
    : option (DB * run_info) :=
  match cb_name b, cb_url b with
  | Some n, Some u =>
      let (t, k) :=
        insert ch_id
          (fun k => Channel k n u (cb_logo b) (cb_category b)
                            (cb_package_id b) (Some (datetime_now now)))
          (channels db) in
      Some (with_channels t db, RunInfo k 1)
  | _, _ => None
  end.

Section Accounts.
(** [bcrypt.compare(data, hash)] and [jwt.sign(payload, secret,
    { expiresIn })] belong to libraries outside the repository. *)
Variable bcrypt_compare : string -> string -> bool.
Variable jwt_sign : claims -> string -> string -> string.
Variable JWT_SECRET : string.
Variable fault : nat -> bool.

(** The [result] handed to the callback of [bcrypt.compare]: undefined
    (with an error) when the password is missing. *)
Definition compare_result (password : option string) (hash : string) : bool :=
  match password with
  | Some pw => bcrypt_compare pw hash
  | None => false
  end.

(** *** POST /api/auth/login *)
Definition post_auth_login (b : login_body) : service :=
  db_get_at fault 0 (select_admin (lb_username b))
    (fun err admin =>
       match err with
       | Some _ => reply_error 500 "Database error"
       | None =>
           match admin with
           | None => reply_error 401 "Invalid credentials"
           | Some a =>
               if compare_result (lb_password b) (a_password a) then
                 reply_json
                   (AdminSession
                      (jwt_sign (Claims (a_id a) (a_username a) None)
                                JWT_SECRET "24h")
                      (a_id a) (a_username a) (a_email a))
               else reply_error 401 "Invalid credentials"
           end
       end).

(** *** POST /api/auth/user-login

    The UPDATE of last_seen is issued without a callback: the answer
    does not wait for it and is the same when it fails. *)
Definition post_auth_user_login (now : Z) (b : login_body) : service :=
  db_get_at fault 0 (select_user (lb_username b))
    (fun err user =>
       match err with
       | Some _ => reply_error 500 "Database error"
       | None =>
           match user with
           | None => reply_error 401 "Invalid credentials"
           | Some u =>
               if compare_result (lb_password b) (u_password u) then
                 db_run_at fault 1 (touch_last_seen now (u_id u))
                   (fun _ _ =>
                      reply_json
                        (UserSession
                           (jwt_sign
                              (Claims (u_id u) (u_username u) (Some "user"))
                              JWT_SECRET "7d")
                           (u_id u) (u_username u) (u_status u)
                           (u_expiry_date u)))
               else reply_error 401 "Invalid credentials"
           end
       end).

(** *** GET /api/packages/:id *)
Definition get_package (id : Z) : service :=
  db_get_at fault 0 (select_package id)
    (fun err row =>
       match err with
       | Some _ => reply_error 500 "Database error"
       | None =>
           match row with
           | None => reply_error 404 "Package not found"
           | Some p => reply_json (PackageFound p)
           end
       end).

(** *** POST /api/packages *)
Definition post_packages (now : Z) (b : package_body) : service :=
  db_run_at fault 0 (insert_package_body now b)
    (fun err this =>
       match err with
       | Some _ => reply_error 500 "Database error"
       | None =>
           reply_json (PackageCreated (lastID this) (pb_name b) (pb_channels b)
                         (pb_duration b) (pb_price b) "active")
       end).

(** *** POST /api/channels *)
Definition post_channels (now : Z) (b : channel_body) : service :=
  db_run_at fault 0 (insert_channel now b)
    (fun err this =>
       match err with
       | Some _ => reply_error 500 "Database error"
       | None =>
           reply_json (ChannelCreated (lastID this) (cb_name b) (cb_url b)
                         (cb_logo b) (cb_category b) (cb_package_id b))
       end).

End Accounts.

(** ** Reference definitions, in the words of the specification *)

(** A user counts for a package when it references the package and its
    status is ['active']. *)
Definition active_on (p : package) (u : user) : bool :=
  match u_package_id u, u_status u with
  | Some pid, Some s => (pid =? p_id p) && String.eqb s "active"
  | _, _ => false
  end.

Definition active_subscribers (p : package) (us : list user) : Z :=
  Z.of_nat (List.length (filter (active_on p) us)).




(** A string without a space. *)
Definition space_free (s : string) : Prop :=
  forall a, In a (list_ascii_of_string s) -> a <> " "%char.

(** The columns of a user row that an update must leave alone. *)
Definition same_identity (u u' : user) : Prop :=
  u_id u' = u_id u /\ u_username u' = u_username u /\
  u_password u' = u_password u /\ u_expiry_date u' = u_expiry_date u /\
  u_last_seen u' = u_last_seen u /\ u_created_at u' = u_created_at u.

(** A user update on [id] touches nothing but the three mutable columns
    of the rows with that id. *)
Definition only_user_changed (id : Z) (db db' : DB) : Prop :=
  admins db' = admins db /\ packages db' = packages db /\
  channels db' = channels db /\ transactions db' = transactions db /\
  seq (users db') = seq (users db) /\
  Forall2 (fun u u' => same_identity u u' /\ (u_id u <> id -> u' = u))
          (rows (users db)) (rows (users db')).

(** Fixtures used to exercise the statements below. *)
Definition demo_hash (s : string) : string := ("$2b$10$" ++ s)%string.
Definition no_fault : nat -> bool := fun _ => false.
Definition plain_sum (l : list double) : double :=
  fold_left (SFadd 53 1024) l (S754_zero false).
Definition demo_now : Z := 1700000000123.
Definition demo_db : DB := initDatabase demo_hash 0 0 demo_now empty_db.
Definition demo_body : user_body :=
  UserBody (Some "user005") (Some "secret") (Some 1) (Some "Roku")
           (Some "expired").
Definition demo_db_after_create : DB :=
  snd (post_users demo_hash no_fault demo_now demo_body demo_db).
Definition operator_db : DB :=
  with_admins (Table [Admin 1 "operator" (demo_hash "hunter2") None (Some 0)] 1)
              empty_db.
Definition demo_claims : claims := Claims 1 "admin" None.
Definition demo_verify (token secret : string) : jwt_error + claims :=
  if String.eqb token "good.token" then inr demo_claims
  else inl TokenExpiredError.

(** ** Consistency of the stored data *)

(** The keys of a table are pairwise distinct and none is larger than
    the table's [sqlite_sequence] entry. *)
Definition keys_ok {A : Type} (id_of : A -> Z) (t : table A) : Prop :=
  NoDup (map id_of (rows t)) /\ Forall (fun r => id_of r <= seq t) (rows t).

(** PRIMARY KEY AUTOINCREMENT on the five tables, UNIQUE on the two
    username columns. *)
Definition consistent (db : DB) : Prop :=
  keys_ok a_id (admins db) /\ keys_ok p_id (packages db) /\
  keys_ok u_id (users db) /\ keys_ok ch_id (channels db) /\
  keys_ok t_id (transactions db) /\
  NoDup (map a_username (rows (admins db))) /\
  NoDup (map u_username (rows (users db))).

(** The order of [ORDER BY key DESC]. *)
Definition desc {A : Type} (key : A -> option Z) (a b : A) : Prop :=
  before key a b = true.

(** The name of the package a user references, if there is one. *)
Definition package_name_of (ps : list package) (u : user) : option string :=
  match u_package_id u with
  | Some k => option_map p_name (find (fun p => p_id p =? k) ps)
  | None => None
  end.

(** More fixtures. *)
Definition demo_compare (password hash : string) : bool :=
  String.eqb (demo_hash password) hash.
Definition demo_sign (c : claims) (secret expiresIn : string) : string :=
  "good.token".
Definition demo_package_body : package_body :=
  PackageBody (Some "Sports Plan") (Some 80) (Some 90) (Some 25%Q) None.
Definition demo_channel_body : channel_body :=
  ChannelBody (Some "News 24") (Some "http://example.test/news.m3u8") None
              (Some "news") (Some 2).

(** ** Tables *)

Section TableFacts.
Context {A : Type} (id_of : A -> Z).

Lemma update_absent (set : A -> A) (id : Z) (t : table A) :
  (forall r, In r (rows t) -> id_of r <> id) ->
  update id_of set id t = (t, 0).
Proof.
  intros Habs. destruct t as [l s]. unfold update. cbn [rows seq] in *.
  assert (E1 : map (fun r => if id_of r =? id then set r else r) l = l).
  { induction l as [|a l IH]; [reflexivity|]. cbn [map].
    destruct (Z.eqb_spec (id_of a) id) as [E|_].
    - exfalso. apply (Habs a); [now left | exact E].
    - f_equal. apply IH. intros r Hr. apply Habs. now right. }
  assert (E2 : filter (fun r => id_of r =? id) l = []).
  { clear E1. induction l as [|a l IH]; [reflexivity|]. cbn [filter].
    destruct (Z.eqb_spec (id_of a) id) as [E|_].
    - exfalso. apply (Habs a); [now left | exact E].
    - apply IH. intros r Hr. apply Habs. now right. }
  now rewrite E1, E2.
Qed.

Lemma delete_absent (id : Z) (t : table A) :
  (forall r, In r (rows t) -> id_of r <> id) ->
  delete id_of id t = (t, 0).
Proof.
  intros Habs. destruct t as [l s]. unfold delete. cbn [rows seq] in *.
  assert (E1 : filter (fun r => negb (id_of r =? id)) l = l).
  { induction l as [|a l IH]; [reflexivity|]. cbn [filter].
    destruct (Z.eqb_spec (id_of a) id) as [E|_].
    - exfalso. apply (Habs a); [now left | exact E].
    - cbn [negb]. f_equal. apply IH. intros r Hr. apply Habs. now right. }
  assert (E2 : filter (fun r => id_of r =? id) l = []).
  { clear E1. induction l as [|a l IH]; [reflexivity|]. cbn [filter].
    destruct (Z.eqb_spec (id_of a) id) as [E|_].
    - exfalso. apply (Habs a); [now left | exact E].
    - apply IH. intros r Hr. apply Habs. now right. }
  now rewrite E1, E2.
Qed.

Lemma count_from (cond : A -> option bool) (l : list A) (n : Z) :
  fold_left (fun k r => if holds (cond r) then k + 1 else k) l n
  = n + Z.of_nat (List.length (filter (fun r => holds (cond r)) l)).
Proof.
  revert n. induction l as [|a l IH]; intros n; cbn [fold_left filter].
  - cbn. lia.
  - rewrite IH. destruct (holds (cond a)); cbn [List.length]; lia.
Qed.

Lemma count_filter (cond : A -> option bool) (l : list A) :
  count cond l = Z.of_nat (List.length (filter (fun r => holds (cond r)) l)).
Proof. unfold count. rewrite count_from. lia. Qed.

Lemma count_all_zero (l : list A) :
  (count (fun _ => Some true) l =? 0) = match l with [] => true | _ => false end.
Proof.
  rewrite count_filter. destruct l as [|a l]; [reflexivity|].
  cbn [holds filter List.length]. apply Z.eqb_neq. lia.
Qed.
End TableFacts.

Section OrderFacts.
Context {A : Type} (key : A -> option Z).

Lemma place_In (a x : A) (l : list A) :
  In x (place key a l) <-> x = a \/ In x l.
Proof.
  induction l as [|b l IH]; cbn [place].
  - cbn. intuition.
  - destruct (before key a b); cbn [In]; [intuition|].
    rewrite IH. intuition.
Qed.

Lemma order_by_desc_In (x : A) (l : list A) :
  In x (order_by_desc key l) <-> In x l.
Proof.
  unfold order_by_desc. induction l as [|a l IH]; cbn [fold_right].
  - reflexivity.
  - rewrite place_In, IH. cbn. intuition.
Qed.
End OrderFacts.

Lemma with_users_same (db : DB) : with_users (users db) db = db.
Proof. now destruct db. Qed.

Lemma with_channels_same (db : DB) : with_channels (channels db) db = db.
Proof. now destruct db. Qed.

Lemma with_packages_same (db : DB) : with_packages (packages db) db = db.
Proof. now destruct db. Qed.

Lemma filter_none {A : Type} (f : A -> bool) (l : list A) :
  (forall x, In x l -> f x = false) -> filter f l = [].
Proof.
  induction l as [|a l IH]; intros Hf; [reflexivity|]. cbn [filter].
  rewrite (Hf a) by now left. apply IH. intros x Hx. apply Hf. now right.
Qed.

(** ** Mutations of a row that does not exist *)

(** The package controller reports a missing row. *)
Lemma packages_missing_id_not_found (fault : nat -> bool) (id : Z) (db : DB) :
  fault 0%nat = false ->
  (forall p, In p (rows (packages db)) -> p_id p <> id) ->
  delete_packages fault id db = (Response 404 (PError "Package not found"), db).
Proof.
  intros Hf Habs. unfold delete_packages, db_run, delete_package.
  rewrite Hf, (delete_absent p_id id _ Habs). cbn.
  now rewrite with_packages_same.
Qed.

(** C1 (the code departs from the claim).  When no user row and no
    channel row has the given id, the mutation affects zero rows, and
    PUT /api/users/:id, DELETE /api/users/:id and DELETE
    /api/channels/:id nevertheless answer 200 with their success
    message and leave the database as it was: [this.changes] is never
    consulted, unlike in the package controller. *)
Theorem users_channels_missing_id_acknowledged :
  forall (fault : nat -> bool) (id : Z) (b : user_body) (db : DB),
    fault 0%nat = false ->
    (forall u, In u (rows (users db)) -> u_id u <> id) ->
    (forall c, In c (rows (channels db)) -> ch_id c <> id) ->
    put_users fault id b db
      = (Response 200 (PMessage "User updated successfully"), db) /\
    delete_users fault id db
      = (Response 200 (PMessage "User deleted successfully"), db) /\
    delete_channels fault id db
      = (Response 200 (PMessage "Channel deleted successfully"), db).
Proof.
  intros fault id b db Hf Hu Hc.
  unfold put_users, delete_users, delete_channels, db_run,
    update_user, delete_user, delete_channel.
  rewrite Hf, (update_absent u_id (set_user b) id _ Hu),
    (delete_absent u_id id _ Hu), (delete_absent ch_id id _ Hc).
  cbn. now rewrite with_users_same, with_channels_same.
Qed.

Lemma users_channels_missing_id_acknowledged_witness :
  put_users no_fault 77 demo_body demo_db
    = (Response 200 (PMessage "User updated successfully"), demo_db) /\
  delete_users no_fault 77 demo_db
    = (Response 200 (PMessage "User deleted successfully"), demo_db) /\
  delete_channels no_fault 77 demo_db
    = (Response 200 (PMessage "Channel deleted successfully"), demo_db).
Proof.
  apply (users_channels_missing_id_acknowledged no_fault 77 demo_body demo_db).
  - reflexivity.
  - intros u Hu. vm_compute in Hu.
    repeat (destruct Hu as [<-|Hu]; [vm_compute; discriminate|]).
    destruct Hu.
  - intros c Hc. vm_compute in Hc. destruct Hc.
Defined.

(** ** Storage failures *)

(** C2 (the code departs from the claim).  In GET /api/dashboard/stats
    a failure of any of the six aggregate queries is not turned into a
    500 response: the callback ignores [err] and reads a property of
    the undefined row, so a TypeError escapes and no response is
    sent. *)
Theorem get_stats_failure_uncaught :
  forall (fault : nat -> bool) (sum_real : list double -> double) (now : Z)
         (db : DB) (k : nat),
    (k < 6)%nat ->
    (forall j, (j < k)%nat -> fault j = false) ->
    fault k = true ->
    get_stats fault sum_real now db = (Uncaught TypeError, db).
Proof.
  intros fault sum_real now db k Hk Hbefore Hfail.
  unfold get_stats, db_get.
  do 6 (destruct k as [|k];
        [ now rewrite Hfail
        | rewrite (Hbefore 0%nat) by lia; cbn [field];
          specialize (fun j H => Hbefore (S j) (proj1 (Nat.succ_lt_mono j k) H)) ]).
  lia.
Qed.

Lemma get_stats_failure_uncaught_witness :
  get_stats (fun n => Nat.eqb n 2) plain_sum demo_now demo_db
    = (Uncaught TypeError, demo_db).
Proof.
  apply (get_stats_failure_uncaught (fun n => Nat.eqb n 2) plain_sum demo_now
           demo_db 2).
  - lia.
  - intros j Hj. destruct j as [|[|j]]; [reflexivity | reflexivity | lia].
  - reflexivity.
Defined.

(** The sibling handler GET /api/dashboard/activity does what the claim
    says. *)
Lemma get_activity_failure_500 (fault : nat -> bool) (now : Z) (db : DB) :
  fault 0%nat = true ->
  get_activity fault now db = (Response 500 (PError "Database error"), db).
Proof. intros Hf. unfold get_activity, db_all. now rewrite Hf. Qed.

(** ** Creating a subscriber *)

Lemma select_duration_missing (package_id : option Z) (db : DB) :
  (forall p, In p (rows (packages db)) -> Some (p_id p) <> package_id) ->
  select_duration package_id db = None.
Proof.
  intros Hmiss. unfold select_duration, select.
  rewrite filter_none; [reflexivity|].
  intros p Hp. specialize (Hmiss p Hp).
  destruct package_id as [k|]; cbn; [|reflexivity].
  destruct (Z.eqb_spec (p_id p) k); [congruence | reflexivity].
Qed.

(** C3 (the code departs from the claim).  When no package has the
    requested package_id, POST /api/users does not fall back to 30
    days: the lookup yields no row, [pkg.duration] throws a TypeError
    inside the callback, no response is sent and no user is stored. *)
Theorem post_users_missing_package_throws :
  forall (bcrypt_hash : string -> string) (fault : nat -> bool) (now : Z)
         (b : user_body) (password : string) (db : DB),
    ub_password b = Some password ->
    (forall p, In p (rows (packages db)) -> Some (p_id p) <> ub_package_id b) ->
    post_users bcrypt_hash fault now b db = (Uncaught TypeError, db).
Proof.
  intros bcrypt_hash fault now b password db Hpw Hmiss.
  unfold post_users, db_get. rewrite Hpw.
  rewrite (select_duration_missing _ _ Hmiss).
  now destruct (fault 0%nat).
Qed.

Lemma post_users_missing_package_throws_witness :
  post_users demo_hash no_fault demo_now
    (UserBody (Some "user005") (Some "secret") (Some 9) (Some "Roku") None)
    demo_db
  = (Uncaught TypeError, demo_db).
Proof.
  apply (post_users_missing_package_throws demo_hash no_fault demo_now
           (UserBody (Some "user005") (Some "secret") (Some 9) (Some "Roku") None)
           "secret" demo_db).
  - reflexivity.
  - intros p Hp. vm_compute in Hp.
    repeat (destruct Hp as [<-|Hp]; [vm_compute; discriminate|]).
    destruct Hp.
Defined.

(** With a package that exists the expiry is [now] plus its duration in
    days, 30 days standing in for a zero duration. *)
Lemma post_users_expiry (bcrypt_hash : string -> string) (fault : nat -> bool)
    (now : Z) (b : user_body) (db : DB) (password username : string)
    (duration : Z) :
  fault 0%nat = false -> fault 1%nat = false ->
  ub_password b = Some password ->
  ub_username b = Some username ->
  (forall u, In u (rows (users db)) -> u_username u <> username) ->
  select_duration (ub_package_id b) db = Some duration ->
  let days := if duration =? 0 then 30 else duration in
  - max_time_value <= now + days * ms_per_day <= max_time_value ->
  exists u,
    post_users bcrypt_hash fault now b db
      = (Response 200 (PUserCreated (u_id u) (Some username) (ub_package_id b)
                                    (ub_device b) "active"),
         with_users (Table (rows (users db) ++ [u]) (u_id u)) db) /\
    u_username u = username /\
    u_password u = bcrypt_hash password /\
    u_expiry_date u = Some (now + days * ms_per_day) /\
    u_status u = Some "active".
Proof.
  intros Hf0 Hf1 Hpw Hun Huniq Hdur days Hrange.
  unfold post_users, db_get, db_run. rewrite Hpw, Hf0, Hdur, Hf1. cbn [field].
  fold days.
  replace (now + days * 24 * 60 * 60 * 1000) with (now + days * ms_per_day)
    by (unfold ms_per_day; lia).
  unfold toISOString.
  replace (- max_time_value <=? now + days * ms_per_day) with true
    by (symmetry; apply Z.leb_le; lia).
  replace (now + days * ms_per_day <=? max_time_value) with true
    by (symmetry; apply Z.leb_le; lia).
  cbn [andb]. unfold insert_subscriber, insert_user. rewrite Hun.
  replace (existsb (fun u => String.eqb (u_username u) username)
                   (rows (users db))) with false.
  2:{ symmetry. apply Bool.not_true_is_false. intros Hex.
      apply existsb_exists in Hex. destruct Hex as [u [Hu He]].
      apply String.eqb_eq in He. exact (Huniq u Hu He). }
  unfold insert. cbn.
  eexists (User _ _ _ _ _ _ _ _ _). cbn. repeat split; reflexivity.
Qed.

Lemma insert_subscriber_row (now : Z) (b : user_body) (hashed : string)
    (expiry : Z) (db db' : DB) (info : run_info) :
  insert_subscriber now b hashed expiry db = Some (db', info) ->
  exists u,
    rows (users db') = rows (users db) ++ [u] /\
    u_status u = Some "active" /\
    ub_username b = Some (u_username u) /\
    u_password u = hashed /\
    u_last_seen u = None /\
    lastID info = u_id u.
Proof.
  unfold insert_subscriber, insert_user, insert.
  destruct (ub_username b) as [n|]; [|discriminate].
  destruct (existsb _ _); [discriminate|].
  intros E. injection E as <- <-. cbn.
  eexists. split; [reflexivity|]. cbn. repeat split; reflexivity.
Qed.

(** C6.  Whatever POST /api/users does, every user row it adds has the
    stored status ['active'], and a 200 answer means exactly one row
    was appended, with status ['active'] and echoed as such; the
    [status] field of the request body is read nowhere. *)
Theorem post_users_status_active :
  forall (bcrypt_hash : string -> string) (fault : nat -> bool) (now : Z)
         (b : user_body) (db : DB) (out : outcome) (db' : DB),
    post_users bcrypt_hash fault now b db = (out, db') ->
    (forall u, In u (rows (users db')) -> ~ In u (rows (users db)) ->
               u_status u = Some "active") /\
    (forall body, out = Response 200 body ->
       exists u,
         rows (users db') = rows (users db) ++ [u] /\
         u_status u = Some "active" /\
         ub_username b = Some (u_username u) /\
         body = PUserCreated (u_id u) (ub_username b) (ub_package_id b)
                             (ub_device b) "active").
Proof.
  intros bcrypt_hash fault now b db out db'.
  assert (Same : forall o, (o, db) = (out, db') ->
            (forall body, o <> Response 200 body) ->
            (forall u, In u (rows (users db')) -> ~ In u (rows (users db)) ->
                       u_status u = Some "active") /\
            (forall body, out = Response 200 body ->
               exists u,
                 rows (users db') = rows (users db) ++ [u] /\
                 u_status u = Some "active" /\
                 ub_username b = Some (u_username u) /\
                 body = PUserCreated (u_id u) (ub_username b) (ub_package_id b)
                                     (ub_device b) "active")).
  { intros o E Ho. injection E as <- <-. split.
    - intros u Hin Hnot. contradiction.
    - intros body Hb. exfalso. exact (Ho body Hb). }
  unfold post_users, db_get, db_run, field, throw, respond, json.
  destruct (ub_password b) as [password|];
    [|intros E; apply (Same _ E); discriminate].
  destruct (fault 0%nat); [intros E; apply (Same _ E); discriminate|].
  destruct (select_duration (ub_package_id b) db) as [duration|];
    [|intros E; apply (Same _ E); discriminate].
  destruct (toISOString _) as [expiryDate|];
    [|intros E; apply (Same _ E); discriminate].
  destruct (fault 1%nat); [intros E; apply (Same _ E); discriminate|].
  destruct (insert_subscriber now b (bcrypt_hash password) expiryDate db)
    as [[db1 info]|] eqn:Hins;
    [|intros E; apply (Same _ E); discriminate].
  intros E. injection E as <- <-.
  destruct (insert_subscriber_row _ _ _ _ _ _ _ Hins)
    as [u [Hrows [Hst [Hun [_ [_ Hid]]]]]].
  split.
  - intros v Hin Hnot. rewrite Hrows in Hin. apply in_app_or in Hin.
    destruct Hin as [Hin|[<-|[]]]; [contradiction | exact Hst].
  - intros body Hb. injection Hb as <-. exists u. rewrite Hid. now repeat split.
Qed.

Lemma post_users_status_active_witness :
  exists u,
    rows (users (snd (post_users demo_hash no_fault demo_now demo_body demo_db)))
      = rows (users demo_db) ++ [u] /\
    u_status u = Some "active" /\
    ub_status demo_body = Some "expired".
Proof.
  destruct (post_users_status_active demo_hash no_fault demo_now demo_body
              demo_db
              (fst (post_users demo_hash no_fault demo_now demo_body demo_db))
              (snd (post_users demo_hash no_fault demo_now demo_body demo_db))
              (surjective_pairing _)) as [_ Hok].
  destruct (Hok (PUserCreated 5 (Some "user005") (Some 1) (Some "Roku") "active")
                eq_refl) as [u [Hrows [Hst _]]].
  exists u. repeat split; [exact Hrows | exact Hst].
Defined.

(** ** Listing packages *)

Lemma subscribers_active_on (p : package) (u : user) :
  holds (and3 (eq_int (u_package_id u) (Some (p_id p)))
              (eq_text (u_status u) (Some "active")))
  = active_on p u.
Proof.
  unfold active_on, eq_int, eq_text.
  destruct (u_package_id u) as [pid|], (u_status u) as [s|]; cbn;
    try destruct (pid =? p_id p); try destruct (String.eqb s "active");
    reflexivity.
Qed.

Lemma subscribers_refines (p : package) (us : list user) :
  subscribers p us = active_subscribers p us.
Proof.
  unfold subscribers, active_subscribers. rewrite count_filter.
  do 2 f_equal. apply filter_ext. intros u. apply subscribers_active_on.
Qed.

(** C4.  GET /api/packages answers with one row per package, in table
    order, whose [subscribers] field is the number of user rows that
    reference the package and have status ['active'], counted on the
    database the request finds; the handler stores nothing. *)
Theorem get_packages_subscribers :
  forall (fault : nat -> bool) (db : DB),
    fault 0%nat = false ->
    exists l,
      get_packages fault db = (Response 200 (PPackages l), db) /\
      Forall2 (fun p r =>
                 pr_id r = p_id p /\ pr_name r = p_name p /\
                 pr_subscribers r = active_subscribers p (rows (users db)))
              (rows (packages db)) l.
Proof.
  intros fault db Hf. exists (select_packages db). split.
  - unfold get_packages, db_all. now rewrite Hf.
  - unfold select_packages. induction (rows (packages db)) as [|p ps IH];
      cbn [map]; constructor; [|exact IH].
    cbn. repeat split. apply subscribers_refines.
Qed.

Lemma get_packages_subscribers_witness :
  exists l,
    get_packages no_fault demo_db_after_create
      = (Response 200 (PPackages l), demo_db_after_create) /\
    map pr_subscribers l = [2; 1; 1].
Proof.
  destruct (get_packages_subscribers no_fault demo_db_after_create eq_refl)
    as [l [E _]].
  exists l. split; [exact E|].
  vm_compute in E. injection E as <-. reflexivity.
Defined.

(** ** Recent activity *)






(** The three renderings quoted by the specification, inside their
    buckets, and two at the edge of a bucket, where the double falls
    short of the exact elapsed time. *)
Lemma lastSeen_examples :
  lastSeen (1700000003000 + 5 * 60000 + 30000) (Some 1700000003000)
    = Some "5 min ago" /\
  lastSeen (1700000003000 + 3 * 3600000 + 1800000) (Some 1700000003000)
    = Some "3 hours ago" /\
  lastSeen (1700000003000 + 2 * 86400000 + 43200000) (Some 1700000003000)
    = Some "2 days ago" /\
  lastSeen (1700000003000 + 5 * 60000) (Some 1700000003000)
    = Some "4 min ago" /\
  lastSeen (1700000003000 + 60 * 60000) (Some 1700000003000)
    = Some "59 min ago".
Proof. repeat split; vm_compute; reflexivity. Qed.




(** ** Seeding at start-up *)

Section ArrangeFacts.
Context {A : Type}.

Lemma insert_at_Permutation (i : nat) (a : A) (l : list A) :
  Permutation (a :: l) (insert_at i a l).
Proof.
  unfold insert_at. rewrite <- (firstn_skipn i l) at 1.
  apply Permutation_middle.
Qed.

Lemma arrange_Permutation (k : nat) (l : list A) :
  Permutation l (arrange k l).
Proof.
  revert k. induction l as [|a l IH]; intros k; cbn [arrange];
    [constructor|].
  rewrite <- insert_at_Permutation. constructor. apply IH.
Qed.

(** Every order of execution is an arrangement. *)
Lemma arrange_complete (l l' : list A) :
  Permutation l l' -> exists k, arrange k l = l'.
Proof.
  revert l'. induction l as [|a l IH]; intros l' Hp.
  - apply Permutation_nil in Hp. subst. now exists 0%nat.
  - assert (Hin : In a l') by (eapply Permutation_in; [exact Hp | now left]).
    apply in_split in Hin. destruct Hin as [l1 [l2 ->]].
    apply Permutation_cons_app_inv in Hp.
    destruct (IH _ Hp) as [k0 Hk0].
    assert (Hlen : List.length l = (List.length l1 + List.length l2)%nat).
    { rewrite (Permutation_length Hp). apply length_app. }
    exists (List.length l1 + k0 * S (List.length l))%nat.
    cbn [arrange].
    rewrite Nat.Div0.mod_add, Nat.div_add by lia.
    rewrite Nat.mod_small, Nat.div_small by lia.
    cbn [Nat.add]. rewrite Hk0. unfold insert_at.
    rewrite firstn_app, skipn_app, Nat.sub_diag, firstn_all, skipn_all.
    cbn [firstn skipn]. now rewrite app_nil_r.
Qed.
End ArrangeFacts.

Section Seeds.
Variable bcrypt_hash : string -> string.
Variable now : Z.

Lemma seed_admin_frame (db : DB) :
  packages (seed_admin bcrypt_hash now db) = packages db /\
  users (seed_admin bcrypt_hash now db) = users db /\
  channels (seed_admin bcrypt_hash now db) = channels db /\
  transactions (seed_admin bcrypt_hash now db) = transactions db.
Proof.
  unfold seed_admin. destruct (find _ _); [now repeat split|].
  destruct (insert_admin _ _ _ _ _) as [[t k]|]; now repeat split.
Qed.

Lemma insert_sample_packages_frame (l : list (string * Z * Z * Q)) (db : DB) :
  admins (fold_left (insert_sample_package now) l db) = admins db /\
  users (fold_left (insert_sample_package now) l db) = users db /\
  channels (fold_left (insert_sample_package now) l db) = channels db /\
  transactions (fold_left (insert_sample_package now) l db) = transactions db.
Proof.
  revert db. induction l as [|[[[n c] d] p] l IH]; intros db;
    cbn [fold_left]; [now repeat split|].
  destruct (IH (insert_sample_package now db (n, c, d, p))) as [A [U [C T]]].
  rewrite A, U, C, T. now destruct db.
Qed.

Lemma insert_sample_users_frame
    (l : list (string * string * Z * string * string)) (db : DB) :
  admins (fold_left (insert_sample_user now) l db) = admins db /\
  packages (fold_left (insert_sample_user now) l db) = packages db /\
  channels (fold_left (insert_sample_user now) l db) = channels db /\
  transactions (fold_left (insert_sample_user now) l db) = transactions db.
Proof.
  revert db. induction l as [|[[[[n h] p] d] st] l IH]; intros db;
    cbn [fold_left]; [now repeat split|].
  destruct (IH (insert_sample_user now db (n, h, p, d, st))) as [A [P [C T]]].
  rewrite A, P, C, T. unfold insert_sample_user.
  destruct (insert_user _ _ _ _ _ _ _ _ _) as [[t k]|]; now destruct db.
Qed.

Lemma seed_packages_frame (order : nat) (db : DB) :
  admins (seed_packages order now db) = admins db /\
  users (seed_packages order now db) = users db /\
  channels (seed_packages order now db) = channels db /\
  transactions (seed_packages order now db) = transactions db.
Proof.
  unfold seed_packages. destruct (_ =? 0); [|now repeat split].
  apply insert_sample_packages_frame.
Qed.

Lemma seed_users_frame (order : nat) (db : DB) :
  admins (seed_users bcrypt_hash order now db) = admins db /\
  packages (seed_users bcrypt_hash order now db) = packages db /\
  channels (seed_users bcrypt_hash order now db) = channels db /\
  transactions (seed_users bcrypt_hash order now db) = transactions db.
Proof.
  unfold seed_users. destruct (_ =? 0); [|now repeat split].
  apply insert_sample_users_frame.
Qed.

Lemma seed_admin_present (db : DB) :
  (exists a, In a (rows (admins db)) /\ a_username a = "admin") ->
  seed_admin bcrypt_hash now db = db.
Proof.
  intros [a [Ha Hn]]. unfold seed_admin.
  destruct (find _ _) eqn:Hfind; [reflexivity|].
  apply find_none with (x := a) in Hfind; [|exact Ha].
  rewrite Hn in Hfind. discriminate.
Qed.

Lemma seed_admin_absent (db : DB) :
  (forall a, In a (rows (admins db)) -> a_username a <> "admin") ->
  exists a,
    rows (admins (seed_admin bcrypt_hash now db)) = rows (admins db) ++ [a] /\
    a_username a = "admin" /\
    a_password a = bcrypt_hash "admin123" /\
    a_email a = Some "admin@iptv.com".
Proof.
  intros Habs. unfold seed_admin, insert_admin.
  destruct (find _ _) as [a|] eqn:Hfind.
  - apply find_some in Hfind. destruct Hfind as [Ha Hn].
    apply String.eqb_eq in Hn. exfalso. exact (Habs a Ha Hn).
  - replace (existsb (fun a => String.eqb (a_username a) "admin")
                     (rows (admins db))) with false.
    + cbn. eexists. split; [reflexivity|]. now repeat split.
    + symmetry. apply Bool.not_true_is_false. intros Hex.
      apply existsb_exists in Hex. destruct Hex as [a [Ha Hn]].
      apply String.eqb_eq in Hn. exact (Habs a Ha Hn).
Qed.

(** The package rows after the INSERTs, in the order of execution. *)
Lemma insert_sample_packages_rows (l : list (string * Z * Z * Q)) (db : DB) :
  map (fun p => (p_name p, p_channels p, p_duration p, p_price p))
      (rows (packages (fold_left (insert_sample_package now) l db)))
  = map (fun p => (p_name p, p_channels p, p_duration p, p_price p))
        (rows (packages db)) ++ l.
Proof.
  revert db. induction l as [|[[[n c] d] p] l IH]; intros db;
    cbn [fold_left]; [now rewrite app_nil_r|].
  rewrite IH. destruct db as [a [pr ps] u ch t]. cbn.
  rewrite map_app, <- app_assoc. reflexivity.
Qed.

(** The user rows after the INSERTs: every sample user whose username
    is free at its turn is stored. *)
Lemma insert_sample_users_rows
    (l : list (string * string * Z * string * string)) (db : DB) :
  NoDup (map (fun x => fst (fst (fst (fst x)))) l) ->
  (forall x u, In x l -> In u (rows (users db)) ->
               u_username u <> fst (fst (fst (fst x)))) ->
  map (fun u => (u_username u, u_password u, u_package_id u, u_device u,
                 u_status u))
      (rows (users (fold_left (insert_sample_user now) l db)))
  = map (fun u => (u_username u, u_password u, u_package_id u, u_device u,
                   u_status u))
        (rows (users db))
    ++ map (fun x : string * string * Z * string * string =>
              let '(username, hash, package_id, device, status) := x in
              (username, hash, Some package_id, Some device, Some status))
           l.
Proof.
  revert db. induction l as [|[[[[n h] p] d] st] l IH]; intros db Hnd Hfree;
    cbn [fold_left]; [now rewrite app_nil_r|].
  cbn [map fst] in Hnd. inversion Hnd as [|x xs Hnot Hrest]; subst.
  assert (Hno : existsb (fun u => String.eqb (u_username u) n)
                        (rows (users db)) = false).
  { apply Bool.not_true_iff_false. intros Hex.
    apply existsb_exists in Hex. destruct Hex as [u [Hu E]].
    apply String.eqb_eq in E.
    exact (Hfree (n, h, p, d, st) u (or_introl eq_refl) Hu E). }
  rewrite IH.
  - unfold insert_sample_user, insert_user, insert. rewrite Hno.
    destruct db as [a pk [ur us] ch t]. cbn.
    rewrite map_app, <- app_assoc. reflexivity.
  - exact Hrest.
  - intros x u Hx Hu. unfold insert_sample_user, insert_user, insert in Hu.
    rewrite Hno in Hu. destruct db as [a pk [ur us] ch t].
    cbn [users with_users rows] in Hu. apply in_app_or in Hu.
    destruct Hu as [Hu|[<-|[]]].
    + apply (Hfree x u); [now right | exact Hu].
    + cbn [u_username]. intros E. apply Hnot. rewrite E.
      exact (in_map (fun y : string * string * Z * string * string =>
                       fst (fst (fst (fst y)))) l x Hx).
Qed.

Lemma seed_packages_nonempty (order : nat) (db : DB) :
  rows (packages db) <> [] -> seed_packages order now db = db.
Proof.
  intros Hne. unfold seed_packages. rewrite count_all_zero.
  destruct (rows (packages db)); [contradiction | reflexivity].
Qed.

Lemma seed_packages_empty (order : nat) (db : DB) :
  rows (packages db) = [] ->
  map (fun p => (p_name p, p_channels p, p_duration p, p_price p))
      (rows (packages (seed_packages order now db)))
  = arrange order samplePackages.
Proof.
  intros He. unfold seed_packages. rewrite count_all_zero, He.
  now rewrite insert_sample_packages_rows, He.
Qed.

Lemma seed_users_nonempty (order : nat) (db : DB) :
  rows (users db) <> [] -> seed_users bcrypt_hash order now db = db.
Proof.
  intros Hne. unfold seed_users. rewrite count_all_zero.
  destruct (rows (users db)); [contradiction | reflexivity].
Qed.

Lemma seed_users_empty (order : nat) (db : DB) :
  rows (users db) = [] ->
  map (fun u => (u_username u, u_password u, u_package_id u, u_device u,
                 u_status u))
      (rows (users (seed_users bcrypt_hash order now db)))
  = map (fun x : string * string * Z * string * string =>
           let '(username, hash, package_id, device, status) := x in
           (username, hash, Some package_id, Some device, Some status))
        (arrange order (sampleUsers (bcrypt_hash "user123"))).
Proof.
  intros He. unfold seed_users. rewrite count_all_zero, He.
  rewrite insert_sample_users_rows.
  - now rewrite He.
  - eapply Permutation_NoDup.
    + apply Permutation_map, arrange_Permutation.
    + cbn. repeat constructor; cbn; intuition discriminate.
  - intros x u _ Hu. rewrite He in Hu. destruct Hu.
Qed.
End Seeds.

(** C7, as stated, fails: with an admins table that holds one row, of
    another username, start-up inserts the admin seed row. *)
Lemma initDatabase_seeds_admin_in_nonempty_table :
  rows (admins operator_db) <> [] /\
  exists a,
    rows (admins (initDatabase demo_hash 0 0 demo_now operator_db))
      = rows (admins operator_db) ++ [a] /\
    a_username a = "admin".
Proof.
  split; [discriminate|].
  eexists. split; [vm_compute; reflexivity | reflexivity].
Qed.

(** C7, amended.  At start-up the admin seed row is inserted if and
    only if no admin row has the username ['admin'] (not: if the admins
    table is empty); the three packages are inserted if and only if the
    packages table is empty, and the four subscribers if and only if
    the users table is empty.  The packages and the subscribers are
    inserted in the order in which the engine executes the INSERTs, any
    order of the array: the rows are the sample rows up to a
    permutation.  Channels and transactions are left as they are. *)
Theorem initDatabase_seeds :
  forall (bcrypt_hash : string -> string) (packages_order users_order : nat)
         (now : Z) (db : DB),
    ((exists a, In a (rows (admins db)) /\ a_username a = "admin") ->
       admins (initDatabase bcrypt_hash packages_order users_order now db)
       = admins db) /\
    ((forall a, In a (rows (admins db)) -> a_username a <> "admin") ->
       exists a,
         rows (admins (initDatabase bcrypt_hash packages_order users_order
                                    now db))
           = rows (admins db) ++ [a] /\
         a_username a = "admin" /\
         a_password a = bcrypt_hash "admin123" /\
         a_email a = Some "admin@iptv.com") /\
    (rows (packages db) <> [] ->
       packages (initDatabase bcrypt_hash packages_order users_order now db)
       = packages db) /\
    (rows (packages db) = [] ->
       Permutation
         (map (fun p => (p_name p, p_channels p, p_duration p, p_price p))
              (rows (packages (initDatabase bcrypt_hash packages_order
                                            users_order now db))))
         samplePackages) /\
    (rows (users db) <> [] ->
       users (initDatabase bcrypt_hash packages_order users_order now db)
       = users db) /\
    (rows (users db) = [] ->
       Permutation
         (map (fun u => (u_username u, u_password u, u_package_id u,
                         u_device u, u_status u))
              (rows (users (initDatabase bcrypt_hash packages_order
                                         users_order now db))))
         (map (fun x : string * string * Z * string * string =>
                 let '(username, hash, package_id, device, status) := x in
                 (username, hash, Some package_id, Some device, Some status))
              (sampleUsers (bcrypt_hash "user123")))) /\
    channels (initDatabase bcrypt_hash packages_order users_order now db)
      = channels db /\
    transactions (initDatabase bcrypt_hash packages_order users_order now db)
      = transactions db.
Proof.
  intros bcrypt_hash po uo now db. unfold initDatabase.
  set (db1 := seed_admin bcrypt_hash now db).
  set (db2 := seed_packages po now db1).
  destruct (seed_admin_frame bcrypt_hash now db) as [Ap [Au [Ac At]]].
  destruct (seed_packages_frame now po db1) as [Pa [Pu [Pc Pt]]].
  destruct (seed_users_frame bcrypt_hash now uo db2) as [Ua [Up [Uc Ut]]].
  fold db1 in Ap, Au, Ac, At. fold db2 in Pa, Pu, Pc, Pt.
  split; [|split; [|split; [|split; [|split; [|split; [|split]]]]]].
  - intros Hex. rewrite Ua, Pa. unfold db1.
    now rewrite (seed_admin_present bcrypt_hash now db Hex).
  - intros Habs. rewrite Ua, Pa.
    exact (seed_admin_absent bcrypt_hash now db Habs).
  - intros Hne. rewrite Up. unfold db2.
    rewrite seed_packages_nonempty; [exact Ap | now rewrite Ap].
  - intros He. rewrite Up. unfold db2.
    rewrite seed_packages_empty by now rewrite Ap.
    symmetry. apply arrange_Permutation.
  - intros Hne. rewrite seed_users_nonempty; rewrite Pu, Au;
      [reflexivity | exact Hne].
  - intros He. rewrite seed_users_empty by now rewrite Pu, Au.
    apply Permutation_map. symmetry. apply arrange_Permutation.
  - now rewrite Uc, Pc.
  - now rewrite Ut, Pt.
Qed.

Lemma initDatabase_seeds_witness :
  (exists a,
     rows (admins (initDatabase demo_hash 4 17 demo_now operator_db))
       = rows (admins operator_db) ++ [a] /\
     a_username a = "admin") /\
  Permutation
    (map (fun p => (p_name p, p_channels p, p_duration p, p_price p))
         (rows (packages (initDatabase demo_hash 4 17 demo_now operator_db))))
    samplePackages /\
  map p_name (rows (packages (initDatabase demo_hash 4 17 demo_now
                                           operator_db)))
    = ["VIP Plan"; "Basic Plan"; "Premium Plan"] /\
  admins (initDatabase demo_hash 4 17 demo_now demo_db) = admins demo_db /\
  packages (initDatabase demo_hash 4 17 demo_now demo_db) = packages demo_db /\
  users (initDatabase demo_hash 4 17 demo_now demo_db) = users demo_db.
Proof.
  destruct (initDatabase_seeds demo_hash 4 17 demo_now operator_db)
    as [_ [Hadd [_ [Hperm _]]]].
  destruct (initDatabase_seeds demo_hash 4 17 demo_now demo_db)
    as [Hadm [_ [Hpkg [_ [Husr _]]]]].
  split; [|split; [|split; [|split; [|split]]]].
  - destruct Hadd as [a [Ha [Hn _]]].
    + intros a Ha. vm_compute in Ha. destruct Ha as [<-|[]]. discriminate.
    + exists a. now split.
  - apply Hperm. reflexivity.
  - vm_compute. reflexivity.
  - apply Hadm. eexists. split; [vm_compute; left; reflexivity | reflexivity].
  - apply Hpkg. discriminate.
  - apply Husr. discriminate.
Defined.

(** ** The guard *)

Lemma split_no_separator (c : ascii) (s : string) :
  (forall a, In a (list_ascii_of_string s) -> a <> c) ->
  split c s = [s].
Proof.
  induction s as [|a s IH]; intros Hno; [reflexivity|].
  cbn [split]. cbn [list_ascii_of_string] in Hno.
  destruct (Ascii.eqb_spec a c) as [E|_].
  - exfalso. apply (Hno a); [now left | exact E].
  - rewrite IH; [reflexivity|]. intros x Hx. apply Hno. now right.
Qed.

Lemma split_bearer (tok : string) :
  split " " ("Bearer " ++ tok) = "Bearer" :: split " " tok.
Proof.
  cbn. destruct (split " " tok); reflexivity.
Qed.

Lemma split_word (w rest : string) :
  (forall a, In a (list_ascii_of_string w) -> a <> " "%char) ->
  split " " (w ++ String " " rest) = w :: split " " rest.
Proof.
  induction w as [|c w IH]; intros Hno.
  - reflexivity.
  - cbn [append split]. cbn [list_ascii_of_string] in Hno.
    destruct (Ascii.eqb_spec c " "%char) as [E|_].
    + exfalso. apply (Hno c); [now left | exact E].
    + rewrite IH; [reflexivity|]. intros a Ha. apply Hno. now right.
Qed.

Lemma append_empty (s : string) : (s ++ EmptyString)%string = s.
Proof. induction s as [|c s IH]; [reflexivity | cbn; now rewrite IH]. Qed.

(** Every string is one word, or a first word, a space and a rest. *)
Lemma first_word (s : string) :
  exists w rest,
    space_free w /\ (s = w \/ s = (w ++ String " " rest)%string).
Proof.
  induction s as [|c s IH].
  - exists EmptyString, EmptyString. split; [intros a []|now left].
  - destruct (Ascii.eqb_spec c " "%char) as [->|Hc].
    + exists EmptyString, s. split; [intros a []|now right].
    + destruct IH as [w [rest [Hw Hs]]]. exists (String c w), rest. split.
      * intros a [<-|Ha]; [exact Hc | now apply Hw].
      * destruct Hs as [->| ->]; [now left | now right].
Qed.

Lemma authenticateToken_second_word
    (jwt_verify : string -> string -> jwt_error + claims) (secret : string)
    (req : request) (next : request -> handler) (db : DB)
    (w rest t : string) (more : list string) :
  authorization req = Some (w ++ String " " rest)%string ->
  space_free w ->
  split " " rest = t :: more ->
  authenticateToken jwt_verify secret req next db
  = match t with
    | EmptyString => (Response 401 (PError "Access token required"), db)
    | String _ _ =>
        match jwt_verify t secret with
        | inl _ => (Response 403 (PError "Invalid or expired token"), db)
        | inr user => next (Request (authorization req) (Some user)) db
        end
    end.
Proof.
  intros Hauth Hw Hsplit. unfold authenticateToken. rewrite Hauth.
  rewrite (split_word _ _ Hw), Hsplit. cbn [nth_error].
  assert (Htruthy : truthy (Some (w ++ String " " rest)%string) = true)
    by now destruct w.
  rewrite Htruthy. destruct t as [|c s]; [reflexivity|].
  cbn [truthy]. now destruct (jwt_verify (String c s) secret).
Qed.

(** C8, as stated, fails: a request without any [Bearer] header, here
    with the header [Basic good.token], is not rejected with 401; the
    guard verifies the second word whatever the first one is, and the
    request reaches the controller. *)
Lemma authenticateToken_accepts_other_scheme :
  (forall token,
     authorization (Request (Some "Basic good.token") None)
     <> Some ("Bearer " ++ token)%string) /\
  protected GET_packages = true /\
  app demo_hash demo_verify "secret" no_fault plain_sum demo_now
      (Request (Some "Basic good.token") None) GET_packages demo_db
  = get_packages no_fault demo_db /\
  fst (get_packages no_fault demo_db)
  <> Response 401 (PError "Access token required").
Proof.
  split; [|split; [reflexivity|split; [reflexivity|]]].
  - intros token H. cbn in H. discriminate.
  - vm_compute. discriminate.
Qed.

(** C8, amended.  On a protected route the controller runs behind
    [authenticateToken], and every request falls under one of three
    cases.  Without an Authorization header it is rejected with 401
    'Access token required'.  With a header that is a single word it
    is rejected with 401 as well.  Otherwise the header is a first
    word, a space, a second word and possibly more after a further
    space; the first word is not compared with [Bearer]; an empty
    second word is rejected with 401; a second word that [jwt.verify]
    refuses (a bad signature, an expired token) is rejected with 403
    'Invalid or expired token'; and otherwise the decoded claims are
    attached to the request and handling continues. *)
Theorem authenticateToken_every_request :
  forall (bcrypt_hash : string -> string)
         (jwt_verify : string -> string -> jwt_error + claims)
         (secret : string) (fault : nat -> bool)
         (sum_real : list double -> double) (now : Z)
         (req : request) (next : request -> handler) (db : DB),
    (forall r, protected r = true ->
       app bcrypt_hash jwt_verify secret fault sum_real now req r
       = authenticateToken jwt_verify secret req
           (fun _ => controller bcrypt_hash fault sum_real now r)) /\
    ((authorization req = None /\
      authenticateToken jwt_verify secret req next db
      = (Response 401 (PError "Access token required"), db))
     \/
     (exists h,
        authorization req = Some h /\ space_free h /\
        authenticateToken jwt_verify secret req next db
        = (Response 401 (PError "Access token required"), db))
     \/
     (exists word token more,
        authorization req
        = Some (word ++ String " " (token ++ more))%string /\
        space_free word /\ space_free token /\
        (more = EmptyString \/ exists rest, more = String " " rest) /\
        ((token = EmptyString /\
          authenticateToken jwt_verify secret req next db
          = (Response 401 (PError "Access token required"), db))
         \/
         (token <> EmptyString /\
          exists e, jwt_verify token secret = inl e /\
          authenticateToken jwt_verify secret req next db
          = (Response 403 (PError "Invalid or expired token"), db))
         \/
         (token <> EmptyString /\
          exists user, jwt_verify token secret = inr user /\
          authenticateToken jwt_verify secret req next db
          = next (Request (authorization req) (Some user)) db)))).
Proof.
  intros bcrypt_hash jwt_verify secret fault sum_real now req next db. split.
  { intros r Hr. unfold app. now rewrite Hr. }
  destruct (authorization req) as [h|] eqn:Hauth.
  2:{ left. split; [reflexivity|]. unfold authenticateToken.
      now rewrite Hauth. }
  right. destruct (first_word h) as [w [rest [Hw [->| ->]]]].
  - left. exists w. split; [reflexivity|]. split; [exact Hw|].
    unfold authenticateToken. rewrite Hauth.
    rewrite (split_no_separator _ _ Hw). cbn [nth_error]. now destruct w.
  - right. destruct (first_word rest) as [t [tail [Ht Hrest]]].
    assert (Hsplit : exists more', split " " rest = t :: more').
    { destruct Hrest as [->| ->].
      - exists []. apply (split_no_separator _ _ Ht).
      - eexists. apply (split_word _ _ Ht). }
    destruct Hsplit as [more' Hsplit].
    pose proof (authenticateToken_second_word jwt_verify secret req next db
                  w rest t more' Hauth Hw Hsplit) as E.
    assert (Hcases :
      (t = EmptyString /\
       authenticateToken jwt_verify secret req next db
       = (Response 401 (PError "Access token required"), db))
      \/
      (t <> EmptyString /\
       exists e, jwt_verify t secret = inl e /\
       authenticateToken jwt_verify secret req next db
       = (Response 403 (PError "Invalid or expired token"), db))
      \/
      (t <> EmptyString /\
       exists user, jwt_verify t secret = inr user /\
       authenticateToken jwt_verify secret req next db
       = next (Request (authorization req) (Some user)) db)).
    { destruct t as [|c s]; [left; now split|].
      right. destruct (jwt_verify (String c s) secret) as [e|user] eqn:Hv.
      - left. split; [discriminate|]. exists e. now split.
      - right. split; [discriminate|]. exists user. now split. }
    rewrite Hauth in Hcases.
    destruct Hrest as [->| ->].
    + exists w, t, EmptyString.
      split; [now rewrite append_empty|]. split; [exact Hw|].
      split; [exact Ht|]. split; [now left | exact Hcases].
    + exists w, t, (String " " tail).
      split; [reflexivity|]. split; [exact Hw|].
      split; [exact Ht|]. split; [right; now exists tail | exact Hcases].
Qed.

Lemma authenticateToken_every_request_witness :
  app demo_hash demo_verify "secret" no_fault plain_sum demo_now
      (Request (Some "Bearer good.token") None) GET_packages demo_db
  = get_packages no_fault demo_db /\
  app demo_hash demo_verify "secret" no_fault plain_sum demo_now
      (Request (Some "Bearer stale.token") None) GET_packages demo_db
  = (Response 403 (PError "Invalid or expired token"), demo_db) /\
  app demo_hash demo_verify "secret" no_fault plain_sum demo_now
      (Request None None) GET_packages demo_db
  = (Response 401 (PError "Access token required"), demo_db).
Proof.
  destruct (authenticateToken_every_request demo_hash demo_verify "secret"
              no_fault plain_sum demo_now
              (Request (Some "Bearer good.token") None)
              (fun _ => get_packages no_fault) demo_db) as [Hgood _].
  destruct (authenticateToken_every_request demo_hash demo_verify "secret"
              no_fault plain_sum demo_now
              (Request (Some "Bearer stale.token") None)
              (fun _ => get_packages no_fault) demo_db) as [Hstale _].
  destruct (authenticateToken_every_request demo_hash demo_verify "secret"
              no_fault plain_sum demo_now (Request None None)
              (fun _ => get_packages no_fault) demo_db)
    as [Hnone [[_ E]|[[h [H _]]|[w [t [m [H _]]]]]]];
    [|discriminate H|discriminate H].
  rewrite (Hgood GET_packages eq_refl), (Hstale GET_packages eq_refl),
    (Hnone GET_packages eq_refl).
  split; [reflexivity|]. split; [reflexivity|]. exact E.
Defined.

(** ** Listing users *)

Lemma left_join_of_user (ps : list package) (u : user) (r : user_row) :
  In r (left_join ps u) -> exists name, r = user_row_of u name.
Proof.
  unfold left_join.
  destruct (filter _ ps) as [|p matched]; intros Hr.
  - destruct Hr as [<-|[]]. now exists None.
  - apply in_map_iff in Hr. destruct Hr as [q [<- _]].
    now exists (Some (p_name q)).
Qed.

Lemma left_join_keeps_user (ps : list package) (u : user) :
  exists name, In (user_row_of u name) (left_join ps u).
Proof.
  unfold left_join. destruct (filter _ ps) as [|p matched].
  - exists None. now left.
  - exists (Some (p_name p)). now left.
Qed.

(** C9.  GET /api/users answers with rows that carry every column of
    the users table, the stored password hash included: each user of
    the table appears in the answer with its password, and each row of
    the answer carries the password of the user it comes from. *)
Theorem get_users_exposes_password :
  forall (fault : nat -> bool) (db : DB),
    fault 0%nat = false ->
    exists l,
      get_users fault db = (Response 200 (PUsers l), db) /\
      (forall u, In u (rows (users db)) ->
         exists r, In r l /\ ur_id r = u_id u /\
                   ur_username r = u_username u /\
                   ur_password r = u_password u) /\
      (forall r, In r l ->
         exists u, In u (rows (users db)) /\ ur_id r = u_id u /\
                   ur_username r = u_username u /\
                   ur_password r = u_password u).
Proof.
  intros fault db Hf. exists (select_users db). split; [|split].
  - unfold get_users, db_all. now rewrite Hf.
  - intros u Hu.
    destruct (left_join_keeps_user (rows (packages db)) u) as [name Hin].
    exists (user_row_of u name). split; [|now repeat split].
    apply order_by_desc_In, in_flat_map. now exists u.
  - intros r Hr. apply order_by_desc_In, in_flat_map in Hr.
    destruct Hr as [u [Hu Hin]]. apply left_join_of_user in Hin.
    destruct Hin as [name ->]. exists u. now repeat split.
Qed.

Lemma get_users_exposes_password_witness :
  exists l,
    get_users no_fault demo_db = (Response 200 (PUsers l), demo_db) /\
    map ur_password l
      = [demo_hash "user123"; demo_hash "user123"; demo_hash "user123";
         demo_hash "user123"].
Proof.
  destruct (get_users_exposes_password no_fault demo_db eq_refl)
    as [l [E _]].
  exists l. split; [exact E|].
  vm_compute in E. injection E as <-. reflexivity.
Defined.

(** ** Updating a user *)

Lemma update_users_frame (b : user_body) (id : Z) (l : list user) :
  Forall2 (fun u u' => same_identity u u' /\ (u_id u <> id -> u' = u))
          l (map (fun r => if u_id r =? id then set_user b r else r) l).
Proof.
  induction l as [|u l IH]; cbn [map]; constructor; [|exact IH].
  destruct (Z.eqb_spec (u_id u) id) as [E|N].
  - split; [now repeat split | intros N; contradiction].
  - split; [now repeat split | reflexivity].
Qed.

Lemma update_users_sets (b : user_body) (id : Z) (l : list user) :
  Forall2 (fun u u' =>
             u_id u = id ->
             u_package_id u' = ub_package_id b /\
             u_status u' = ub_status b /\ u_device u' = ub_device b)
          l (map (fun r => if u_id r =? id then set_user b r else r) l).
Proof.
  induction l as [|u l IH]; cbn [map]; constructor; [|exact IH].
  intros E. apply Z.eqb_eq in E. rewrite E. now repeat split.
Qed.

(** C10.  PUT /api/users/:id changes nothing but the package_id,
    status and device columns of the user rows with that id: every
    user row keeps its id, username, password, expiry_date, last_seen
    and created_at, rows with another id are untouched, and so are the
    other four tables.  When the statement runs, the rows with that id
    take the three values of the request body. *)
Theorem put_users_frame :
  forall (fault : nat -> bool) (id : Z) (b : user_body) (db : DB),
    only_user_changed id db (snd (put_users fault id b db)) /\
    (fault 0%nat = false ->
     Forall2 (fun u u' =>
                u_id u = id ->
                u_package_id u' = ub_package_id b /\
                u_status u' = ub_status b /\ u_device u' = ub_device b)
             (rows (users db))
             (rows (users (snd (put_users fault id b db))))).
Proof.
  intros fault id b db.
  unfold put_users, db_run, update_user, update, only_user_changed.
  destruct (fault 0%nat); cbn.
  - split; [|discriminate]. repeat split.
    induction (rows (users db)) as [|u l IH]; constructor; [|exact IH].
    split; [now repeat split | reflexivity].
  - split; [|intros _; apply update_users_sets].
    repeat split. apply update_users_frame.
Qed.

Lemma put_users_frame_witness :
  only_user_changed 4 demo_db
    (snd (put_users no_fault 4 demo_body demo_db)) /\
  map u_status (rows (users (snd (put_users no_fault 4 demo_body demo_db))))
    = [Some "active"; Some "active"; Some "active"; Some "expired"] /\
  map u_device (rows (users (snd (put_users no_fault 4 demo_body demo_db))))
    = [Some "Android"; Some "iOS"; Some "Smart TV"; Some "Roku"].
Proof.
  destruct (put_users_frame no_fault 4 demo_body demo_db) as [Hframe _].
  split; [exact Hframe|]. split; reflexivity.
Defined.

(** ** Keys and AUTOINCREMENT *)

Lemma NoDup_map_filter {A B : Type} (key : A -> B) (keep : A -> bool)
    (table_rows : list A) (Hnd : NoDup (map key table_rows)) :
  NoDup (map key (filter keep table_rows)).
Proof.
  revert Hnd. induction table_rows as [|a l IH]; intros Hnd; [exact Hnd|].
  cbn [map] in Hnd. inversion Hnd as [|x xs Hnot Hrest]; subst.
  cbn [filter]. destruct (keep a); [|exact (IH Hrest)].
  cbn [map]. constructor; [|exact (IH Hrest)].
  intros Hin. apply Hnot. apply in_map_iff in Hin.
  destruct Hin as [x [Hx Hin]]. apply filter_In in Hin.
  apply in_map_iff. exists x. tauto.
Qed.

Section KeyFacts.
Context {A : Type} (id_of : A -> Z).

Lemma max_rowid_bound (l : list A) (r : A) :
  In r l -> id_of r <= max_rowid id_of l.
Proof.
  induction l as [|a l IH]; intros Hr; [destruct Hr|].
  cbn [max_rowid fold_right]. fold (max_rowid id_of l).
  destruct Hr as [<-|Hr]; [lia | specialize (IH Hr); lia].
Qed.

Lemma next_rowid_fresh (t : table A) (r : A) :
  In r (rows t) -> id_of r < next_rowid id_of t.
Proof.
  intros Hr. unfold next_rowid. pose proof (max_rowid_bound _ _ Hr). lia.
Qed.

Lemma next_rowid_above_seq (t : table A) : seq t < next_rowid id_of t.
Proof. unfold next_rowid. lia. Qed.

Lemma insert_keys_ok (mk : Z -> A) (t : table A) :
  (forall k, id_of (mk k) = k) ->
  keys_ok id_of t -> keys_ok id_of (fst (insert id_of mk t)).
Proof.
  intros Hmk [Hnd Hle]. unfold keys_ok, insert. cbn [fst rows seq].
  split.
  - rewrite map_app. cbn [map]. rewrite Hmk.
    apply NoDup_app; [exact Hnd | repeat constructor; intros [] | ].
    intros k Hk [<-|[]]. apply in_map_iff in Hk. destruct Hk as [r [E Hr]].
    pose proof (next_rowid_fresh t r Hr). lia.
  - apply Forall_app. split.
    + apply Forall_forall. intros r Hr.
      pose proof (next_rowid_fresh t r Hr). lia.
    + repeat constructor. rewrite Hmk. lia.
Qed.

Lemma update_keys_ok (set : A -> A) (id : Z) (t : table A) :
  (forall r, id_of (set r) = id_of r) ->
  keys_ok id_of t -> keys_ok id_of (fst (update id_of set id t)).
Proof.
  intros Hset [Hnd Hle]. unfold keys_ok, update. cbn [fst rows seq].
  assert (E : map id_of (map (fun r => if id_of r =? id then set r else r)
                             (rows t)) = map id_of (rows t)).
  { rewrite map_map. apply map_ext. intros r.
    destruct (id_of r =? id); [apply Hset | reflexivity]. }
  split; [now rewrite E|].
  apply Forall_forall. intros r Hr. apply in_map_iff in Hr.
  destruct Hr as [r0 [<- Hr0]]. rewrite Forall_forall in Hle.
  specialize (Hle r0 Hr0). destruct (id_of r0 =? id); [rewrite Hset|]; exact Hle.
Qed.

Lemma delete_keys_ok (id : Z) (t : table A) :
  keys_ok id_of t -> keys_ok id_of (fst (delete id_of id t)).
Proof.
  intros [Hnd Hle]. unfold keys_ok, delete. cbn [fst rows seq]. split.
  - now apply NoDup_map_filter.
  - apply Forall_forall. intros r Hr. apply filter_In in Hr.
    rewrite Forall_forall in Hle. now apply Hle.
Qed.

(** After a DELETE no row has the key. *)
Lemma delete_removes (id : Z) (t : table A) (r : A) :
  In r (rows (fst (delete id_of id t))) <-> In r (rows t) /\ id_of r <> id.
Proof.
  unfold delete. cbn [fst rows]. rewrite filter_In.
  destruct (Z.eqb_spec (id_of r) id); cbn; intuition congruence.
Qed.

(** An INSERT followed by the DELETE of its key gives the rows back. *)
Lemma delete_inserted (mk : Z -> A) (t : table A) :
  (forall k, id_of (mk k) = k) ->
  rows (fst (delete id_of (snd (insert id_of mk t))
                    (fst (insert id_of mk t)))) = rows t /\
  snd (delete id_of (snd (insert id_of mk t)) (fst (insert id_of mk t))) = 1.
Proof.
  intros Hmk. unfold delete, insert. cbn [fst snd rows seq].
  set (k := next_rowid id_of t).
  assert (Hold : forall r, In r (rows t) -> (id_of r =? k) = false).
  { intros r Hr. apply Z.eqb_neq. pose proof (next_rowid_fresh t r Hr).
    unfold k. lia. }
  rewrite !filter_app. cbn [filter]. rewrite Hmk, Z.eqb_refl. cbn [negb].
  rewrite app_nil_r. split.
  - clear -Hold. induction (rows t) as [|a l IH]; [reflexivity|].
    cbn [filter]. rewrite (Hold a) by now left. cbn [negb]. f_equal.
    apply IH. intros r Hr. apply Hold. now right.
  - rewrite filter_none; [reflexivity | exact Hold].
Qed.
End KeyFacts.

Lemma update_map_fixed {A B : Type} (id_of : A -> Z) (f : A -> B)
    (set : A -> A) (id : Z) (t : table A) :
  (forall r, f (set r) = f r) ->
  map f (rows (fst (update id_of set id t))) = map f (rows t).
Proof.
  intros Hset. unfold update. cbn [fst rows]. rewrite map_map.
  apply map_ext. intros r. destruct (id_of r =? id); [apply Hset | reflexivity].
Qed.

(** ** Every statement keeps the stored data consistent *)

Lemma consistent_with_users (t : table user) (db : DB) :
  consistent db -> keys_ok u_id t -> NoDup (map u_username (rows t)) ->
  consistent (with_users t db).
Proof. unfold consistent. destruct db; cbn. tauto. Qed.

Lemma consistent_with_packages (t : table package) (db : DB) :
  consistent db -> keys_ok p_id t -> consistent (with_packages t db).
Proof. unfold consistent. destruct db; cbn. tauto. Qed.

Lemma consistent_with_channels (t : table channel) (db : DB) :
  consistent db -> keys_ok ch_id t -> consistent (with_channels t db).
Proof. unfold consistent. destruct db; cbn. tauto. Qed.

Lemma consistent_with_admins (t : table admin) (db : DB) :
  consistent db -> keys_ok a_id t -> NoDup (map a_username (rows t)) ->
  consistent (with_admins t db).
Proof. unfold consistent. destruct db; cbn. tauto. Qed.

Lemma consistent_empty : consistent empty_db.
Proof.
  unfold consistent, keys_ok, empty_db, empty. cbn.
  repeat split; constructor.
Qed.

Lemma insert_user_consistent (now : Z) (username password : option string)
    (package_id : option Z) (device status : option string)
    (expiry_date last_seen : option Z) (db : DB) (t : table user) (k : Z) :
  consistent db ->
  insert_user now username password package_id device status expiry_date
              last_seen (users db) = Some (t, k) ->
  consistent (with_users t db).
Proof.
  intros Hc. unfold insert_user.
  destruct username as [n|]; [|discriminate].
  destruct password as [pw|]; [|discriminate].
  destruct (existsb _ _) eqn:Hex; [discriminate|].
  intros E. injection E as <- <-.
  pose proof Hc as [_ [_ [Hk [_ [_ [_ Hn]]]]]].
  apply consistent_with_users.
  - assumption.
  - exact (insert_keys_ok u_id
             (fun k => User k n pw package_id device status expiry_date
                            last_seen (Some (datetime_now now)))
             (users db) (fun _ => eq_refl) Hk).
  - unfold insert. cbn [fst rows]. rewrite map_app. cbn [map u_username].
    apply NoDup_app; [exact Hn | repeat constructor; intros [] |].
    intros x Hx [->|[]]. apply in_map_iff in Hx. destruct Hx as [u [E Hu]].
    assert (Ht : existsb (fun u => String.eqb (u_username u) x)
                         (rows (users db)) = true).
    { apply existsb_exists. exists u. split; [exact Hu|].
      now apply String.eqb_eq. }
    congruence.
Qed.

Lemma update_user_consistent (b : user_body) (id : Z) (db db' : DB)
    (info : run_info) :
  consistent db -> update_user b id db = Some (db', info) -> consistent db'.
Proof.
  intros Hc. unfold update_user.
  destruct (update u_id (set_user b) id (users db)) as [t k] eqn:E.
  intros E'. injection E' as <- _.
  replace t with (fst (update u_id (set_user b) id (users db)))
    by now rewrite E.
  apply consistent_with_users; [exact Hc | |].
  - apply update_keys_ok; [reflexivity | apply Hc].
  - rewrite (update_map_fixed u_id u_username); [apply Hc | reflexivity].
Qed.

Lemma touch_last_seen_consistent (now id : Z) (db db' : DB) (info : run_info) :
  consistent db -> touch_last_seen now id db = Some (db', info) ->
  consistent db'.
Proof.
  intros Hc. unfold touch_last_seen.
  destruct (update u_id (seen now) id (users db)) as [t k] eqn:E.
  intros E'. injection E' as <- _.
  replace t with (fst (update u_id (seen now) id (users db)))
    by now rewrite E.
  apply consistent_with_users; [exact Hc | |].
  - apply update_keys_ok; [reflexivity | apply Hc].
  - rewrite (update_map_fixed u_id u_username); [apply Hc | reflexivity].
Qed.

Lemma delete_user_consistent (id : Z) (db db' : DB) (info : run_info) :
  consistent db -> delete_user id db = Some (db', info) -> consistent db'.
Proof.
  intros Hc. unfold delete_user.
  destruct (delete u_id id (users db)) as [t k] eqn:E.
  intros E'. injection E' as <- _.
  replace t with (fst (delete u_id id (users db))) by now rewrite E.
  apply consistent_with_users; [exact Hc | |].
  - apply delete_keys_ok, Hc.
  - unfold delete. cbn [fst rows]. apply NoDup_map_filter, Hc.
Qed.

Lemma update_package_consistent (b : package_body) (id : Z) (db db' : DB)
    (info : run_info) :
  consistent db -> update_package b id db = Some (db', info) -> consistent db'.
Proof.
  intros Hc. unfold update_package.
  destruct (pb_name b) as [n|], (pb_channels b) as [c|],
    (pb_duration b) as [d|], (pb_price b) as [pr|];
    try (destruct (existsb _ _); [discriminate|];
         intros E; injection E as <- _; exact Hc).
  match goal with
  | |- context [update p_id ?f id (packages db)] =>
      destruct (update p_id f id (packages db)) as [t k] eqn:E;
      intros E'; injection E' as <- _;
      replace t with (fst (update p_id f id (packages db))) by now rewrite E
  end.
  apply consistent_with_packages; [exact Hc|].
  apply update_keys_ok; [reflexivity | apply Hc].
Qed.

Lemma delete_package_consistent (id : Z) (db db' : DB) (info : run_info) :
  consistent db -> delete_package id db = Some (db', info) -> consistent db'.
Proof.
  intros Hc. unfold delete_package.
  destruct (delete p_id id (packages db)) as [t k] eqn:E.
  intros E'. injection E' as <- _.
  replace t with (fst (delete p_id id (packages db))) by now rewrite E.
  apply consistent_with_packages; [exact Hc | apply delete_keys_ok, Hc].
Qed.

Lemma delete_channel_consistent (id : Z) (db db' : DB) (info : run_info) :
  consistent db -> delete_channel id db = Some (db', info) -> consistent db'.
Proof.
  intros Hc. unfold delete_channel.
  destruct (delete ch_id id (channels db)) as [t k] eqn:E.
  intros E'. injection E' as <- _.
  replace t with (fst (delete ch_id id (channels db))) by now rewrite E.
  apply consistent_with_channels; [exact Hc | apply delete_keys_ok, Hc].
Qed.

Lemma insert_subscriber_consistent (now : Z) (b : user_body) (hashed : string)
    (expiry : Z) (db db' : DB) (info : run_info) :
  consistent db -> insert_subscriber now b hashed expiry db = Some (db', info) ->
  consistent db'.
Proof.
  intros Hc. unfold insert_subscriber.
  destruct (insert_user _ _ _ _ _ _ _ _ _) as [[t k]|] eqn:E; [|discriminate].
  intros E'. injection E' as <- _.
  exact (insert_user_consistent _ _ _ _ _ _ _ _ _ _ _ Hc E).
Qed.

Lemma insert_package_consistent (now : Z) (name : string) (chans duration : Z)
    (price : Q) (db : DB) :
  consistent db ->
  consistent (with_packages
                (fst (insert_package now name chans duration price
                                     (packages db))) db).
Proof.
  intros Hc. apply consistent_with_packages; [exact Hc|].
  unfold insert_package. apply insert_keys_ok; [reflexivity | apply Hc].
Qed.

Lemma insert_package_body_consistent (now : Z) (b : package_body)
    (db db' : DB) (info : run_info) :
  consistent db -> insert_package_body now b db = Some (db', info) ->
  consistent db'.
Proof.
  intros Hc. unfold insert_package_body.
  destruct (pb_name b) as [n|], (pb_channels b) as [c|],
    (pb_duration b) as [d|], (pb_price b) as [pr|]; try discriminate.
  destruct (insert_package now n c d pr (packages db)) as [t k] eqn:E.
  intros E'. injection E' as <- _.
  replace t with (fst (insert_package now n c d pr (packages db)))
    by now rewrite E.
  now apply insert_package_consistent.
Qed.

Lemma insert_channel_consistent (now : Z) (b : channel_body)
    (db db' : DB) (info : run_info) :
  consistent db -> insert_channel now b db = Some (db', info) ->
  consistent db'.
Proof.
  intros Hc. unfold insert_channel.
  destruct (cb_name b) as [n|], (cb_url b) as [u|]; try discriminate.
  match goal with
  | |- context [insert ch_id ?f (channels db)] =>
      destruct (insert ch_id f (channels db)) as [t k] eqn:E;
      intros E'; injection E' as <- _;
      replace t with (fst (insert ch_id f (channels db))) by now rewrite E
  end.
  apply consistent_with_channels; [exact Hc|].
  apply insert_keys_ok; [reflexivity | apply Hc].
Qed.

Ltac run_calls :=
  unfold db_get, db_all, db_run, db_get_at, db_run_at, field, throw, respond,
    json, reply_error, reply_json.

Lemma seed_admin_consistent (bcrypt_hash : string -> string) (now : Z)
    (db : DB) :
  consistent db -> consistent (seed_admin bcrypt_hash now db).
Proof.
  intros Hc. unfold seed_admin. destruct (find _ _); [exact Hc|].
  unfold insert_admin. destruct (existsb _ _) eqn:Hex; [exact Hc|].
  apply consistent_with_admins; [exact Hc | |].
  - exact (insert_keys_ok a_id
             (fun k => Admin k "admin" (bcrypt_hash "admin123")
                             (Some "admin@iptv.com") (Some (datetime_now now)))
             (admins db) (fun _ => eq_refl) (proj1 Hc)).
  - unfold insert. cbn [fst rows]. rewrite map_app. cbn [map a_username].
    apply NoDup_app; [apply Hc | repeat constructor; intros [] |].
    intros x Hx [Hin|[]]. subst x.
    apply in_map_iff in Hx. destruct Hx as [a [E Ha]].
    assert (Ht : existsb (fun a => String.eqb (a_username a) "admin")
                         (rows (admins db)) = true).
    { apply existsb_exists. exists a. split; [exact Ha|].
      now apply String.eqb_eq. }
    congruence.
Qed.

Lemma seed_packages_consistent (order : nat) (now : Z) (db : DB) :
  consistent db -> consistent (seed_packages order now db).
Proof.
  intros Hc. unfold seed_packages. destruct (_ =? 0); [|exact Hc].
  revert db Hc. induction (arrange order samplePackages)
    as [|[[[n c] d] p] l IH]; intros db Hc; cbn [fold_left]; [exact Hc|].
  apply IH. now apply insert_package_consistent.
Qed.

Lemma seed_users_consistent (bcrypt_hash : string -> string) (order : nat)
    (now : Z) (db : DB) :
  consistent db -> consistent (seed_users bcrypt_hash order now db).
Proof.
  intros Hc. unfold seed_users. destruct (_ =? 0); [|exact Hc].
  revert db Hc.
  induction (arrange order (sampleUsers (bcrypt_hash "user123")))
    as [|[[[[n h] p] d] st] l IH]; intros db Hc; cbn [fold_left];
    [exact Hc|].
  apply IH. unfold insert_sample_user.
  destruct (insert_user _ _ _ _ _ _ _ _ _) as [[t k]|] eqn:E; [|exact Hc].
  exact (insert_user_consistent _ _ _ _ _ _ _ _ _ _ _ Hc E).
Qed.

Lemma consistent_demo_db : consistent demo_db.
Proof.
  apply seed_users_consistent, seed_packages_consistent,
    seed_admin_consistent, consistent_empty.
Qed.

(** X1.  Start-up keeps the stored data consistent, in whatever order
    the seed INSERTs are executed: after [initDatabase] the keys of
    every table are still pairwise distinct and bounded by the table's
    sequence, and the usernames of admins and of users are still
    pairwise distinct. *)
Theorem initDatabase_consistent :
  forall (bcrypt_hash : string -> string) (packages_order users_order : nat)
         (now : Z) (db : DB),
    consistent db ->
    consistent (initDatabase bcrypt_hash packages_order users_order now db).
Proof.
  intros bcrypt_hash po uo now db Hc. unfold initDatabase.
  now apply seed_users_consistent, seed_packages_consistent,
    seed_admin_consistent.
Qed.

Lemma initDatabase_consistent_witness :
  consistent (initDatabase demo_hash 3 11 demo_now empty_db).
Proof.
  apply (initDatabase_consistent demo_hash 3 11 demo_now empty_db).
  unfold consistent, keys_ok. cbn. repeat split; constructor.
Defined.

(** X2.  Whatever a request to one of the embedded routes does (answer,
    storage failure, uncaught exception), it leaves the stored data
    consistent: no handler creates a duplicate key or a duplicate
    username. *)
Theorem controller_consistent :
  forall (bcrypt_hash : string -> string) (fault : nat -> bool)
         (sum_real : list double -> double) (now : Z) (r : route) (db : DB),
    consistent db ->
    consistent (snd (controller bcrypt_hash fault sum_real now r db)).
Proof.
  intros bcrypt_hash fault sum_real now r db Hc.
  destruct r as [| | |id b|id| |b|id b|id|pid|id]; cbn [controller].
  - unfold get_stats. run_calls.
    repeat (destruct (fault _); [exact Hc|]). exact Hc.
  - unfold get_activity. run_calls. now destruct (fault _).
  - unfold get_packages. run_calls. now destruct (fault _).
  - unfold put_packages. run_calls. destruct (fault _); [exact Hc|].
    destruct (update_package b id db) as [[db' info]|] eqn:E; [|exact Hc].
    apply (update_package_consistent _ _ _ _ _ Hc) in E.
    now destruct (changes info =? 0).
  - unfold delete_packages. run_calls. destruct (fault _); [exact Hc|].
    destruct (delete_package id db) as [[db' info]|] eqn:E; [|exact Hc].
    apply (delete_package_consistent _ _ _ _ Hc) in E.
    now destruct (changes info =? 0).
  - unfold get_users. run_calls. now destruct (fault _).
  - unfold post_users. run_calls.
    destruct (ub_password b) as [pw|]; [|exact Hc].
    destruct (fault 0%nat); [exact Hc|].
    destruct (select_duration _ _) as [d|]; [|exact Hc].
    destruct (toISOString _) as [e|]; [|exact Hc].
    destruct (fault 1%nat); [exact Hc|].
    destruct (insert_subscriber now b (bcrypt_hash pw) e db)
      as [[db' info]|] eqn:E; [|exact Hc].
    exact (insert_subscriber_consistent _ _ _ _ _ _ _ Hc E).
  - unfold put_users. run_calls. destruct (fault _); [exact Hc|].
    destruct (update_user b id db) as [[db' info]|] eqn:E; [|exact Hc].
    exact (update_user_consistent _ _ _ _ _ Hc E).
  - unfold delete_users. run_calls. destruct (fault _); [exact Hc|].
    destruct (delete_user id db) as [[db' info]|] eqn:E; [|exact Hc].
    exact (delete_user_consistent _ _ _ _ Hc E).
  - unfold get_channels. run_calls. now destruct (fault _).
  - unfold delete_channels. run_calls. destruct (fault _); [exact Hc|].
    destruct (delete_channel id db) as [[db' info]|] eqn:E; [|exact Hc].
    exact (delete_channel_consistent _ _ _ _ Hc E).
Qed.

Lemma controller_consistent_witness :
  consistent (snd (controller demo_hash no_fault plain_sum demo_now
                              (POST_users demo_body) demo_db)) /\
  List.length (rows (users (snd (controller demo_hash no_fault plain_sum demo_now
                                            (POST_users demo_body) demo_db))))
    = 5%nat /\
  consistent (snd (controller demo_hash no_fault plain_sum demo_now
                              (PUT_users 4 demo_body) demo_db)) /\
  map u_device (rows (users (snd (controller demo_hash no_fault plain_sum demo_now
                                             (PUT_users 4 demo_body)
                                             demo_db))))
    = [Some "Android"; Some "iOS"; Some "Smart TV"; Some "Roku"] /\
  consistent (snd (controller demo_hash no_fault plain_sum demo_now
                              (DELETE_users 2) demo_db)) /\
  map u_id (rows (users (snd (controller demo_hash no_fault plain_sum demo_now
                                         (DELETE_users 2) demo_db))))
    = [1; 3; 4] /\
  consistent (snd (controller demo_hash no_fault plain_sum demo_now
                              (DELETE_packages 1) demo_db)) /\
  map p_id (rows (packages (snd (controller demo_hash no_fault plain_sum demo_now
                                            (DELETE_packages 1) demo_db))))
    = [2; 3].
Proof.
  assert (H0 : consistent demo_db).
  { unfold consistent, keys_ok. vm_compute.
    repeat split; repeat constructor; cbn; intuition (discriminate || lia). }
  split; [|split; [|split; [|split; [|split; [|split; [|split]]]]]];
    try reflexivity.
  - exact (controller_consistent demo_hash no_fault plain_sum demo_now
             (POST_users demo_body) demo_db H0).
  - exact (controller_consistent demo_hash no_fault plain_sum demo_now
             (PUT_users 4 demo_body) demo_db H0).
  - exact (controller_consistent demo_hash no_fault plain_sum demo_now
             (DELETE_users 2) demo_db H0).
  - exact (controller_consistent demo_hash no_fault plain_sum demo_now
             (DELETE_packages 1) demo_db H0).
Defined.

(** X3.  The two logins, GET /api/packages/:id, POST /api/packages and
    POST /api/channels leave the stored data consistent as well. *)
Theorem services_consistent :
  forall (bcrypt_compare : string -> string -> bool)
         (jwt_sign : claims -> string -> string -> string)
         (secret : string) (fault : nat -> bool) (now : Z) (db : DB),
    consistent db ->
    (forall b, consistent
       (snd (post_auth_login bcrypt_compare jwt_sign secret fault b db))) /\
    (forall b, consistent
       (snd (post_auth_user_login bcrypt_compare jwt_sign secret fault now b
                                  db))) /\
    (forall id, consistent (snd (get_package fault id db))) /\
    (forall b, consistent (snd (post_packages fault now b db))) /\
    (forall b, consistent (snd (post_channels fault now b db))).
Proof.
  intros bcrypt_compare jwt_sign secret fault now db Hc.
  split; [|split; [|split; [|split]]]; intros x.
  - unfold post_auth_login. run_calls. destruct (fault _); [exact Hc|].
    destruct (select_admin _ _) as [a|]; [|exact Hc].
    now destruct (compare_result _ _ _).
  - unfold post_auth_user_login. run_calls. destruct (fault 0%nat); [exact Hc|].
    destruct (select_user _ _) as [u|]; [|exact Hc].
    destruct (compare_result _ _ _); [|exact Hc].
    destruct (fault 1%nat); [exact Hc|].
    destruct (touch_last_seen now (u_id u) db) as [[db' info]|] eqn:E;
      [|exact Hc].
    exact (touch_last_seen_consistent _ _ _ _ _ Hc E).
  - unfold get_package. run_calls. destruct (fault _); [exact Hc|].
    now destruct (select_package _ _).
  - unfold post_packages. run_calls. destruct (fault _); [exact Hc|].
    destruct (insert_package_body now x db) as [[db' info]|] eqn:E;
      [|exact Hc].
    exact (insert_package_body_consistent _ _ _ _ _ Hc E).
  - unfold post_channels. run_calls. destruct (fault _); [exact Hc|].
    destruct (insert_channel now x db) as [[db' info]|] eqn:E; [|exact Hc].
    exact (insert_channel_consistent _ _ _ _ _ Hc E).
Qed.

Lemma services_consistent_witness :
  consistent (snd (post_packages no_fault demo_now demo_package_body empty_db)) /\
  consistent (snd (post_channels no_fault demo_now demo_channel_body empty_db)).
Proof.
  assert (H0 : consistent empty_db).
  { unfold consistent, keys_ok. cbn. repeat split; constructor. }
  destruct (services_consistent demo_compare demo_sign "secret" no_fault
              demo_now empty_db H0) as [_ [_ [_ [Hp Hc]]]].
  split; [apply Hp | apply Hc].
Defined.

(** ** Start-up twice *)

Section SeedsAgain.
Variable bcrypt_hash : string -> string.
Variable now : Z.

Lemma seed_admin_has_admin (db : DB) :
  exists a, In a (rows (admins (seed_admin bcrypt_hash now db))) /\
            a_username a = "admin".
Proof.
  destruct (find (fun a => String.eqb (a_username a) "admin")
                 (rows (admins db))) as [a|] eqn:Hfind.
  - apply find_some in Hfind. destruct Hfind as [Ha Hn].
    apply String.eqb_eq in Hn.
    rewrite seed_admin_present; exists a; now split.
  - destruct (seed_admin_absent bcrypt_hash now db) as [a [Hrows [Hn _]]].
    + intros a Ha Hn. apply (find_none _ _ Hfind) in Ha.
      rewrite Hn in Ha. discriminate.
    + exists a. split; [|exact Hn]. rewrite Hrows. apply in_or_app.
      right. now left.
Qed.

Lemma seed_packages_has_rows (order : nat) (db : DB) :
  rows (packages (seed_packages order now db)) <> [].
Proof.
  destruct (rows (packages db)) as [|p ps] eqn:E.
  - intros Hnil. pose proof (seed_packages_empty now order db E) as Hmap.
    rewrite Hnil in Hmap. cbn [map] in Hmap.
    pose proof (arrange_Permutation order samplePackages) as Hp.
    rewrite <- Hmap in Hp. apply Permutation_sym, Permutation_nil in Hp.
    discriminate.
  - rewrite seed_packages_nonempty; rewrite E; discriminate.
Qed.

Lemma seed_users_has_rows (order : nat) (db : DB) :
  rows (users (seed_users bcrypt_hash order now db)) <> [].
Proof.
  destruct (rows (users db)) as [|u us] eqn:E.
  - intros Hnil.
    pose proof (seed_users_empty bcrypt_hash now order db E) as Hmap.
    rewrite Hnil in Hmap. cbn [map] in Hmap. symmetry in Hmap.
    apply map_eq_nil in Hmap.
    pose proof (arrange_Permutation order (sampleUsers (bcrypt_hash "user123")))
      as Hp.
    rewrite Hmap in Hp. apply Permutation_sym, Permutation_nil in Hp.
    discriminate.
  - rewrite seed_users_nonempty; rewrite E; discriminate.
Qed.
End SeedsAgain.

(** X4.  Start-up is idempotent: running [initDatabase] on a database
    it has already initialised, at any later time and with any order
    of execution, changes nothing (no second admin, no second batch of
    packages or subscribers). *)
Theorem initDatabase_idempotent :
  forall (bcrypt_hash : string -> string)
         (packages_order users_order packages_order' users_order' : nat)
         (now later : Z) (db : DB),
    initDatabase bcrypt_hash packages_order' users_order' later
      (initDatabase bcrypt_hash packages_order users_order now db)
    = initDatabase bcrypt_hash packages_order users_order now db.
Proof.
  intros bcrypt_hash po uo po' uo' now later db. unfold initDatabase.
  set (db1 := seed_admin bcrypt_hash now db).
  set (db2 := seed_packages po now db1).
  set (db3 := seed_users bcrypt_hash uo now db2).
  destruct (seed_packages_frame now po db1) as [Pa _].
  destruct (seed_users_frame bcrypt_hash now uo db2) as [Ua [Up _]].
  fold db2 in Pa. fold db3 in Ua, Up.
  assert (E1 : seed_admin bcrypt_hash later db3 = db3).
  { apply seed_admin_present. rewrite Ua, Pa.
    apply seed_admin_has_admin. }
  assert (E2 : seed_packages po' later db3 = db3).
  { apply seed_packages_nonempty. rewrite Up. apply seed_packages_has_rows. }
  assert (E3 : seed_users bcrypt_hash uo' later db3 = db3).
  { apply seed_users_nonempty. apply seed_users_has_rows. }
  now rewrite E1, E2, E3.
Qed.

(** ** Keys are not reused *)

Lemma post_users_created (bcrypt_hash : string -> string)
    (fault : nat -> bool) (now : Z) (b : user_body) (db db' : DB)
    (body : payload) :
  post_users bcrypt_hash fault now b db = (Response 200 body, db') ->
  exists password duration expiry info,
    ub_password b = Some password /\
    select_duration (ub_package_id b) db = Some duration /\
    toISOString (now + (if duration =? 0 then 30 else duration)
                       * 24 * 60 * 60 * 1000) = Some expiry /\
    insert_subscriber now b (bcrypt_hash password) expiry db = Some (db', info) /\
    body = PUserCreated (lastID info) (ub_username b) (ub_package_id b)
                        (ub_device b) "active".
Proof.
  unfold post_users. run_calls.
  destruct (ub_password b) as [pw|]; [|discriminate].
  destruct (fault 0%nat); [discriminate|].
  destruct (select_duration _ _) as [d|]; [|discriminate].
  destruct (toISOString _) as [e|] eqn:He; [|discriminate].
  destruct (fault 1%nat); [discriminate|].
  destruct (insert_subscriber now b (bcrypt_hash pw) e db)
    as [[db1 info]|] eqn:Hins; [|discriminate].
  intros E. injection E as <- <-.
  exists pw, d, e, info. now repeat split.
Qed.

Lemma insert_subscriber_key (now : Z) (b : user_body) (hashed : string)
    (expiry : Z) (db db' : DB) (info : run_info) :
  insert_subscriber now b hashed expiry db = Some (db', info) ->
  lastID info = next_rowid u_id (users db).
Proof.
  unfold insert_subscriber, insert_user, insert.
  destruct (ub_username b) as [n|]; [|discriminate].
  destruct (existsb _ _); [discriminate|].
  intros E. now injection E as <- <-.
Qed.

Lemma delete_users_seq (fault : nat -> bool) (id : Z) (db : DB) :
  seq (users (snd (delete_users fault id db))) = seq (users db).
Proof.
  unfold delete_users, delete_user, delete. run_calls.
  now destruct (fault _).
Qed.

(** X5.  User ids are never reused (AUTOINCREMENT): after DELETE
    /api/users/:id, a user created by POST /api/users gets an id larger
    than the id of every user that was stored before the deletion, the
    deleted one included. *)
Theorem user_ids_not_reused :
  forall (bcrypt_hash : string -> string) (fault fault' : nat -> bool)
         (now : Z) (b : user_body) (db db' : DB) (id id' : Z)
         (username : option string) (package_id : option Z)
         (device : option string) (status : string),
    consistent db ->
    post_users bcrypt_hash fault' now b (snd (delete_users fault id db))
      = (Response 200 (PUserCreated id' username package_id device status),
         db') ->
    forall u, In u (rows (users db)) -> u_id u < id'.
Proof.
  intros bcrypt_hash fault fault' now b db db' id id' un pid dev st Hc Hpost
    u Hu.
  apply post_users_created in Hpost.
  destruct Hpost as [pw [d [e [info [_ [_ [_ [Hins Hbody]]]]]]]].
  injection Hbody as -> _ _ _ _.
  rewrite (insert_subscriber_key _ _ _ _ _ _ _ Hins).
  pose proof (next_rowid_above_seq u_id (users (snd (delete_users fault id db))))
    as Hseq.
  rewrite delete_users_seq in Hseq.
  destruct Hc as [_ [_ [[_ Hle] _]]]. rewrite Forall_forall in Hle.
  specialize (Hle u Hu). lia.
Qed.

Lemma user_ids_not_reused_witness :
  Forall (fun u => u_id u < 5) (rows (users demo_db)).
Proof.
  apply Forall_forall.
  apply (user_ids_not_reused demo_hash no_fault no_fault demo_now demo_body
           demo_db
           (snd (post_users demo_hash no_fault demo_now demo_body
                            (snd (delete_users no_fault 4 demo_db))))
           4 5 (Some "user005") (Some 1) (Some "Roku") "active").
  - unfold consistent, keys_ok. vm_compute.
    repeat split; repeat constructor; cbn; intuition (discriminate || lia).
  - vm_compute. reflexivity.
Defined.

(** ** Packages: lookups after mutations *)

Section LookupFacts.
Context {A : Type} (id_of : A -> Z).

Lemma lookup_updated (set : A -> A) (id : Z) (l : list A) :
  (forall r, id_of (set r) = id_of r) ->
  hd_error (filter (fun r => id_of r =? id)
                   (map (fun r => if id_of r =? id then set r else r) l))
  = option_map set (hd_error (filter (fun r => id_of r =? id) l)).
Proof.
  intros Hset. induction l as [|a l IH]; [reflexivity|].
  cbn [map filter]. destruct (id_of a =? id) eqn:E.
  - rewrite Hset, E. reflexivity.
  - rewrite E. exact IH.
Qed.

Lemma lookup_inserted (mk : Z -> A) (t : table A) :
  (forall k, id_of (mk k) = k) ->
  hd_error (filter (fun r => id_of r =? snd (insert id_of mk t))
                   (rows (fst (insert id_of mk t))))
  = Some (mk (next_rowid id_of t)).
Proof.
  intros Hmk. unfold insert. cbn [fst snd rows].
  rewrite filter_app, filter_none.
  - cbn [filter app]. now rewrite Hmk, Z.eqb_refl.
  - intros r Hr. apply Z.eqb_neq. pose proof (next_rowid_fresh id_of t r Hr).
    lia.
Qed.

Lemma lookup_found (id : Z) (l : list A) (r : A) :
  hd_error (filter (fun r => id_of r =? id) l) = Some r ->
  In r l /\ id_of r = id.
Proof.
  intros H.
  assert (Hin : In r (filter (fun r => id_of r =? id) l)).
  { destruct (filter _ l) as [|x xs]; [discriminate|].
    injection H as ->. now left. }
  apply filter_In in Hin. destruct Hin as [Hin E].
  split; [exact Hin | now apply Z.eqb_eq].
Qed.

Lemma changes_positive (id : Z) (l : list A) (r : A) :
  In r l -> id_of r = id ->
  0 < Z.of_nat (List.length (filter (fun r => id_of r =? id) l)).
Proof.
  intros Hin E.
  assert (Hf : In r (filter (fun r => id_of r =? id) l)).
  { apply filter_In. split; [exact Hin | now apply Z.eqb_eq]. }
  destruct (filter _ l); [destruct Hf | cbn [List.length]; lia].
Qed.
End LookupFacts.

(** X6.  PUT and DELETE /api/packages/:id on an id that no package has
    answer 404 'Package not found' and leave the database as it was,
    whatever the request body holds. *)
Theorem packages_missing_id_404 :
  forall (fault : nat -> bool) (id : Z) (b : package_body) (db : DB),
    fault 0%nat = false ->
    (forall p, In p (rows (packages db)) -> p_id p <> id) ->
    put_packages fault id b db
      = (Response 404 (PError "Package not found"), db) /\
    delete_packages fault id db
      = (Response 404 (PError "Package not found"), db).
Proof.
  intros fault id b db Hf Habs. split.
  - assert (Hno : existsb (fun p => p_id p =? id) (rows (packages db))
                  = false).
    { apply Bool.not_true_iff_false. intros Hex.
      apply existsb_exists in Hex. destruct Hex as [p [Hp E]].
      apply Z.eqb_eq in E. exact (Habs p Hp E). }
    unfold put_packages, update_package. run_calls. rewrite Hf.
    destruct (pb_name b) as [n|], (pb_channels b) as [c|],
      (pb_duration b) as [d|], (pb_price b) as [pr|];
      rewrite ?Hno; try reflexivity.
    rewrite (update_absent p_id _ id _ Habs). cbn.
    now rewrite with_packages_same.
  - unfold delete_packages, delete_package. run_calls.
    rewrite Hf, (delete_absent p_id id _ Habs). cbn.
    now rewrite with_packages_same.
Qed.

Lemma packages_missing_id_404_witness :
  put_packages no_fault 9 demo_package_body demo_db
    = (Response 404 (PError "Package not found"), demo_db) /\
  delete_packages no_fault 9 demo_db
    = (Response 404 (PError "Package not found"), demo_db).
Proof.
  apply (packages_missing_id_404 no_fault 9 demo_package_body demo_db).
  - reflexivity.
  - intros p Hp. vm_compute in Hp.
    repeat (destruct Hp as [<-|Hp]; [vm_compute; discriminate|]).
    destruct Hp.
Defined.

(** X7.  DELETE /api/packages/:id on a stored package answers 200,
    removes exactly the packages with that id and does not cascade:
    users and channels keep their rows, and GET /api/users then lists
    every user that still references the deleted package with a null
    package_name. *)
Theorem delete_packages_no_cascade :
  forall (fault : nat -> bool) (id : Z) (p : package) (db : DB),
    fault 0%nat = false ->
    In p (rows (packages db)) -> p_id p = id ->
    exists db',
      delete_packages fault id db
        = (Response 200 (PMessage "Package deleted successfully"), db') /\
      (forall q, In q (rows (packages db')) <->
                 In q (rows (packages db)) /\ p_id q <> id) /\
      users db' = users db /\ channels db' = channels db /\
      admins db' = admins db /\ transactions db' = transactions db /\
      (forall r, In r (select_users db') -> ur_package_id r = Some id ->
                 ur_package_name r = None).
Proof.
  intros fault id p db Hf Hp Hid.
  exists (with_packages (fst (delete p_id id (packages db))) db).
  split; [|split; [|split; [|split; [|split; [|split]]]]];
    try (now destruct db).
  - unfold delete_packages, delete_package. run_calls. rewrite Hf.
    pose proof (changes_positive p_id id _ p Hp Hid) as Hpos.
    unfold delete. cbn [fst snd changes].
    destruct (Z.eqb_spec
                (Z.of_nat (List.length (filter (fun r => p_id r =? id)
                                               (rows (packages db))))) 0);
      [lia | reflexivity].
  - intros q.
    replace (packages (with_packages (fst (delete p_id id (packages db))) db))
      with (fst (delete p_id id (packages db))) by now destruct db.
    apply delete_removes.
  - intros r Hr Hpid. unfold select_users in Hr.
    apply order_by_desc_In, in_flat_map in Hr. destruct Hr as [u [_ Hr]].
    unfold left_join in Hr.
    replace (rows (packages (with_packages (fst (delete p_id id (packages db)))
                                           db)))
      with (rows (fst (delete p_id id (packages db)))) in Hr
      by now destruct db.
    destruct (filter _ (rows (fst (delete p_id id (packages db)))))
      as [|m ms] eqn:Hm.
    + destruct Hr as [<-|[]]. reflexivity.
    + exfalso.
      assert (Hin : In m (filter
                 (fun q => holds (eq_int (u_package_id u) (Some (p_id q))))
                 (rows (fst (delete p_id id (packages db)))))).
      { rewrite Hm. now left. }
      apply filter_In in Hin. destruct Hin as [Hin Hmatch].
      apply delete_removes in Hin. destruct Hin as [_ Hne].
      apply in_map_iff in Hr. destruct Hr as [q [<- _]].
      cbn in Hpid. rewrite Hpid in Hmatch. cbn in Hmatch.
      destruct (Z.eqb_spec id (p_id m)); [congruence | discriminate].
Qed.

Lemma delete_packages_no_cascade_witness :
  exists db',
    delete_packages no_fault 1 demo_db
      = (Response 200 (PMessage "Package deleted successfully"), db') /\
    map p_id (rows (packages db')) = [2; 3] /\
    map ur_package_name (select_users db')
      = [None; Some "Premium Plan"; Some "VIP Plan"; None].
Proof.
  destruct (delete_packages_no_cascade no_fault 1
              (Package 1 "Basic Plan" 150 30 15%Q (Some "active")
                       (Some 1700000000000))
              demo_db eq_refl) as [db' [E _]].
  - vm_compute. now left.
  - reflexivity.
  - exists db'. split; [exact E|].
    vm_compute in E. injection E as <-. split; reflexivity.
Defined.

Lemma select_package_filter (id : Z) (db : DB) :
  select_package id db
  = hd_error (filter (fun p => p_id p =? id) (rows (packages db))).
Proof.
  unfold select_package, select. f_equal. apply filter_ext.
  intros p. cbn. now destruct (p_id p =? id).
Qed.

(** X8.  A package created by POST /api/packages is found again: the
    id of the answer, given to GET /api/packages/:id, returns a package
    with that id, the four values of the request body and the status
    ['active'], whatever status the body carried. *)
Theorem post_packages_then_get :
  forall (fault fault' : nat -> bool) (now : Z) (b : package_body) (db : DB)
         (name : string) (chans duration : Z) (price : Q),
    fault 0%nat = false -> fault' 0%nat = false ->
    pb_name b = Some name -> pb_channels b = Some chans ->
    pb_duration b = Some duration -> pb_price b = Some price ->
    exists id db',
      post_packages fault now b db
        = (PackageCreated id (Some name) (Some chans) (Some duration)
                          (Some price) "active", db') /\
      get_package fault' id db'
        = (PackageFound (Package id name chans duration price (Some "active")
                                 (Some (datetime_now now))), db') /\
      forall p, In p (rows (packages db)) -> p_id p < id.
Proof.
  intros fault fault' now b db name chans duration price Hf Hf' Hn Hc Hd Hp.
  exists (next_rowid p_id (packages db)).
  exists (with_packages
            (fst (insert_package now name chans duration price (packages db)))
            db).
  split; [|split].
  - unfold post_packages, insert_package_body. run_calls.
    rewrite Hf, Hn, Hc, Hd, Hp. reflexivity.
  - unfold get_package. run_calls. rewrite Hf', select_package_filter.
    replace (packages (with_packages
               (fst (insert_package now name chans duration price
                                    (packages db))) db))
      with (fst (insert_package now name chans duration price (packages db)))
      by now destruct db.
    unfold insert_package.
    pose proof (lookup_inserted p_id
                  (fun k => Package k name chans duration price status_default
                                    (Some (datetime_now now)))
                  (packages db) (fun _ => eq_refl)) as L.
    change (snd (insert p_id
                   (fun k => Package k name chans duration price status_default
                                     (Some (datetime_now now)))
                   (packages db)))
      with (next_rowid p_id (packages db)) in L.
    rewrite L. reflexivity.
  - intros p. apply next_rowid_fresh.
Qed.

Lemma post_packages_then_get_witness :
  exists db',
    post_packages no_fault demo_now demo_package_body demo_db
      = (PackageCreated 4 (Some "Sports Plan") (Some 80) (Some 90)
                        (Some 25%Q) "active", db') /\
    get_package no_fault 4 db'
      = (PackageFound (Package 4 "Sports Plan" 80 90 25%Q (Some "active")
                               (Some 1700000000000)), db').
Proof.
  destruct (post_packages_then_get no_fault no_fault demo_now
              demo_package_body demo_db "Sports Plan" 80 90 25%Q
              eq_refl eq_refl eq_refl eq_refl eq_refl eq_refl)
    as [id [db' [E [G _]]]].
  assert (Hid : id = 4) by (vm_compute in E; now injection E as <- _).
  subst id. exists db'. split; [exact E | exact G].
Defined.

(** X9.  POST /api/packages with name, channels, duration or price
    missing is not answered with a validation error: the NOT NULL
    constraint fails in the database and the answer is 500 'Database
    error'; nothing is stored. *)
Theorem post_packages_missing_field :
  forall (fault : nat -> bool) (now : Z) (b : package_body) (db : DB),
    pb_name b = None \/ pb_channels b = None \/
    pb_duration b = None \/ pb_price b = None ->
    post_packages fault now b db
      = (Plain (Response 500 (PError "Database error")), db).
Proof.
  intros fault now b db Hmiss.
  unfold post_packages, insert_package_body. run_calls.
  destruct (fault 0%nat); [reflexivity|].
  destruct (pb_name b), (pb_channels b), (pb_duration b), (pb_price b);
    try reflexivity.
  destruct Hmiss as [H|[H|[H|H]]]; discriminate.
Qed.

Lemma post_packages_missing_field_witness :
  post_packages no_fault demo_now
    (PackageBody (Some "Sports Plan") (Some 80) None (Some 25%Q) None) demo_db
  = (Plain (Response 500 (PError "Database error")), demo_db).
Proof.
  apply (post_packages_missing_field no_fault demo_now
           (PackageBody (Some "Sports Plan") (Some 80) None (Some 25%Q) None)
           demo_db).
  right. right. left. reflexivity.
Defined.

(** X10.  PUT /api/packages/:id on a stored package replaces name,
    channels, duration, price and status by the values of the body and
    keeps id and created_at, as GET /api/packages/:id then shows; a
    body without status stores a NULL status. *)
Theorem put_packages_then_get :
  forall (fault fault' : nat -> bool) (id : Z) (b : package_body) (db : DB)
         (p : package) (name : string) (chans duration : Z) (price : Q),
    fault 0%nat = false -> fault' 0%nat = false ->
    select_package id db = Some p ->
    pb_name b = Some name -> pb_channels b = Some chans ->
    pb_duration b = Some duration -> pb_price b = Some price ->
    exists db',
      put_packages fault id b db
        = (Response 200 (PMessage "Package updated successfully"), db') /\
      get_package fault' id db'
        = (PackageFound (Package id name chans duration price (pb_status b)
                                 (p_created_at p)), db') /\
      users db' = users db /\ channels db' = channels db.
Proof.
  intros fault fault' id b db p name chans duration price Hf Hf' Hsel
    Hn Hc Hd Hp.
  set (upd := fun q => Package (p_id q) name chans duration price
                               (pb_status b) (p_created_at q)).
  exists (with_packages (fst (update p_id upd id (packages db))) db).
  rewrite select_package_filter in Hsel.
  destruct (lookup_found p_id id _ p Hsel) as [Hin Hid].
  split; [|split; [|split]]; try (now destruct db).
  - unfold put_packages, update_package. run_calls.
    rewrite Hf, Hn, Hc, Hd, Hp. fold upd.
    pose proof (changes_positive p_id id _ p Hin Hid) as Hpos.
    unfold update. cbn [fst snd changes].
    destruct (Z.eqb_spec
                (Z.of_nat (List.length (filter (fun r => p_id r =? id)
                                               (rows (packages db))))) 0);
      [lia | reflexivity].
  - unfold get_package. run_calls. rewrite Hf', select_package_filter.
    replace (packages (with_packages (fst (update p_id upd id (packages db)))
                                     db))
      with (fst (update p_id upd id (packages db))) by now destruct db.
    unfold update. cbn [fst rows].
    rewrite (lookup_updated p_id upd id _ (fun _ => eq_refl)), Hsel.
    cbn [option_map]. unfold upd. now rewrite Hid.
Qed.

Lemma put_packages_then_get_witness :
  exists db',
    put_packages no_fault 2 demo_package_body demo_db
      = (Response 200 (PMessage "Package updated successfully"), db') /\
    get_package no_fault 2 db'
      = (PackageFound (Package 2 "Sports Plan" 80 90 25%Q None
                               (Some 1700000000000)), db').
Proof.
  destruct (put_packages_then_get no_fault no_fault 2 demo_package_body demo_db
              (Package 2 "Premium Plan" 300 30 30%Q (Some "active")
                       (Some 1700000000000))
              "Sports Plan" 80 90 25%Q
              eq_refl eq_refl eq_refl eq_refl eq_refl eq_refl eq_refl)
    as [db' [E [G _]]].
  exists db'. split; [exact E | exact G].
Defined.

(** ** Creating subscribers: constraints and bounds *)

(** X11.  POST /api/users without a username, or with a username that
    a stored user already has, stores nothing and is never answered
    200, whatever else the body holds and whichever database call
    fails.  Without a password the answer is 500 'Server error' (the
    hashing fails before the database is reached); with a password, a
    package lookup that succeeds and finds the package, and an expiry
    within the range of a Date, the answer is 500 'Database error' (the
    NOT NULL or UNIQUE constraint fails in the INSERT). *)
Theorem post_users_username_rejected :
  forall (bcrypt_hash : string -> string) (fault : nat -> bool) (now : Z)
         (b : user_body) (db : DB),
    ub_username b = None \/
    (exists u, In u (rows (users db)) /\ ub_username b = Some (u_username u)) ->
    snd (post_users bcrypt_hash fault now b db) = db /\
    (forall body,
       fst (post_users bcrypt_hash fault now b db) <> Response 200 body) /\
    (ub_password b = None ->
     fst (post_users bcrypt_hash fault now b db)
       = Response 500 (PError "Server error")) /\
    (forall (password : string) (duration : Z),
       ub_password b = Some password ->
       fault 0%nat = false ->
       select_duration (ub_package_id b) db = Some duration ->
       - max_time_value
         <= now + (if duration =? 0 then 30 else duration) * ms_per_day
         <= max_time_value ->
       fst (post_users bcrypt_hash fault now b db)
         = Response 500 (PError "Database error")).
Proof.
  intros bcrypt_hash fault now b db Hbad.
  assert (Hins : forall h e, insert_subscriber now b h e db = None).
  { intros h e. unfold insert_subscriber, insert_user.
    destruct Hbad as [Hnone|[u [Hu Hname]]].
    - now rewrite Hnone.
    - rewrite Hname.
      replace (existsb (fun v => String.eqb (u_username v) (u_username u))
                       (rows (users db))) with true; [reflexivity|].
      symmetry. apply existsb_exists. exists u. split; [exact Hu|].
      apply String.eqb_refl. }
  assert (Hrun : forall h e,
            db_run fault 1 (insert_subscriber now b h e)
              (fun err this =>
                 match err with
                 | Some _ => respond 500 (PError "Database error")
                 | None =>
                     json (PUserCreated (lastID this) (ub_username b)
                             (ub_package_id b) (ub_device b) "active")
                 end) db
            = (Response 500 (PError "Database error"), db)).
  { intros h e. unfold db_run, respond. rewrite Hins.
    now destruct (fault 1%nat). }
  unfold post_users.
  destruct (ub_password b) as [password|] eqn:Hpw.
  - unfold db_get, field, throw.
    destruct (fault 0%nat) eqn:Hf.
    + cbn. split; [reflexivity|]. split; [discriminate|].
      split; [discriminate|]. intros ? ? _ Hfalse. discriminate.
    + destruct (select_duration (ub_package_id b) db) as [duration|] eqn:Hdur.
      * destruct (toISOString _) as [e|] eqn:Hiso.
        -- rewrite Hrun. cbn. split; [reflexivity|]. split; [discriminate|].
           split; [discriminate|]. reflexivity.
        -- cbn. split; [reflexivity|]. split; [discriminate|].
           split; [discriminate|].
           intros password' duration' _ _ Hd Hrange.
           injection Hd as <-. unfold toISOString in Hiso.
           destruct (_ && _) eqn:Hin; [discriminate|].
           apply andb_false_iff in Hin. unfold ms_per_day in Hrange.
           unfold max_time_value in Hin, Hrange.
           destruct Hin as [Hin|Hin]; apply Z.leb_gt in Hin; lia.
      * cbn. split; [reflexivity|]. split; [discriminate|].
        split; [discriminate|]. intros ? ? _ _ Hfalse. discriminate.
  - unfold respond. cbn. split; [reflexivity|]. split; [discriminate|].
    split; [reflexivity|]. intros ? ? Hfalse. discriminate.
Qed.

Lemma post_users_username_rejected_witness :
  post_users demo_hash no_fault demo_now
    (UserBody (Some "user002") (Some "secret") (Some 1) None None) demo_db
  = (Response 500 (PError "Database error"), demo_db) /\
  post_users demo_hash no_fault demo_now
    (UserBody None None (Some 1) None None) demo_db
  = (Response 500 (PError "Server error"), demo_db).
Proof.
  split.
  - destruct (post_users_username_rejected demo_hash no_fault demo_now
                (UserBody (Some "user002") (Some "secret") (Some 1) None None)
                demo_db) as [Hdb [_ [_ Hans]]].
    + right.
      exists (User 2 "user002" (demo_hash "user123") (Some 2) (Some "iOS")
                   (Some "active") (Some 1702592000123) (Some 1700000000000)
                   (Some 1700000000000)).
      split; [vm_compute; right; left; reflexivity | reflexivity].
    + specialize (Hans "secret" 30 eq_refl eq_refl eq_refl).
      rewrite (surjective_pairing (post_users _ _ _ _ _)), Hdb, Hans.
      * reflexivity.
      * vm_compute. split; discriminate.
  - destruct (post_users_username_rejected demo_hash no_fault demo_now
                (UserBody None None (Some 1) None None) demo_db)
      as [Hdb [_ [Hans _]]].
    + left. reflexivity.
    + rewrite (surjective_pairing (post_users _ _ _ _ _)), Hdb, (Hans eq_refl).
      reflexivity.
Defined.

(** X12.  The expiry written by POST /api/users for an existing package
    and a fresh username: [now] plus the package's duration in days (30
    days for a duration of 0) when that time is within the range of a
    JavaScript Date; beyond the range [toISOString] throws a RangeError
    inside the callback, no response is sent and nothing is stored. *)
Theorem post_users_expiry_bounds :
  forall (bcrypt_hash : string -> string) (fault : nat -> bool) (now : Z)
         (b : user_body) (db : DB) (password username : string)
         (duration : Z),
    fault 0%nat = false -> fault 1%nat = false ->
    ub_password b = Some password ->
    ub_username b = Some username ->
    (forall u, In u (rows (users db)) -> u_username u <> username) ->
    select_duration (ub_package_id b) db = Some duration ->
    (- max_time_value
     <= now + (if duration =? 0 then 30 else duration) * ms_per_day
     <= max_time_value ->
     exists u,
       snd (post_users bcrypt_hash fault now b db)
         = with_users (Table (rows (users db) ++ [u]) (u_id u)) db /\
       u_username u = username /\
       u_password u = bcrypt_hash password /\
       u_expiry_date u
         = Some (now + (if duration =? 0 then 30 else duration) * ms_per_day) /\
       u_last_seen u = None) /\
    (max_time_value
     < now + (if duration =? 0 then 30 else duration) * ms_per_day ->
     post_users bcrypt_hash fault now b db = (Uncaught RangeError, db)).
Proof.
  intros bcrypt_hash fault now b db password username duration Hf0 Hf1 Hpw
    Hun Huniq Hdur.
  split.
  - intros Hrange.
    unfold post_users. run_calls. rewrite Hpw, Hf0, Hdur, Hf1.
    replace (now + (if duration =? 0 then 30 else duration)
                   * 24 * 60 * 60 * 1000)
      with (now + (if duration =? 0 then 30 else duration) * ms_per_day)
      by (unfold ms_per_day; lia).
    unfold toISOString.
    replace (- max_time_value
             <=? now + (if duration =? 0 then 30 else duration) * ms_per_day)
      with true by (symmetry; apply Z.leb_le; lia).
    replace (now + (if duration =? 0 then 30 else duration) * ms_per_day
             <=? max_time_value)
      with true by (symmetry; apply Z.leb_le; lia).
    cbn [andb]. unfold insert_subscriber, insert_user. rewrite Hun.
    replace (existsb (fun u => String.eqb (u_username u) username)
                     (rows (users db))) with false.
    2:{ symmetry. apply Bool.not_true_is_false. intros Hex.
        apply existsb_exists in Hex. destruct Hex as [u [Hu He]].
        apply String.eqb_eq in He. exact (Huniq u Hu He). }
    unfold insert. cbn.
    eexists (User _ _ _ _ _ _ _ _ _). cbn. repeat split; reflexivity.
  - intros Hover.
    unfold post_users. run_calls. rewrite Hpw, Hf0, Hdur.
    replace (now + (if duration =? 0 then 30 else duration)
                   * 24 * 60 * 60 * 1000)
      with (now + (if duration =? 0 then 30 else duration) * ms_per_day)
      by (unfold ms_per_day; lia).
    unfold toISOString.
    replace (now + (if duration =? 0 then 30 else duration) * ms_per_day
             <=? max_time_value)
      with false by (symmetry; apply Z.leb_gt; lia).
    now rewrite Bool.andb_false_r.
Qed.

Lemma post_users_expiry_bounds_witness :
  exists u,
    snd (post_users demo_hash no_fault demo_now demo_body demo_db)
      = with_users (Table (rows (users demo_db) ++ [u]) (u_id u)) demo_db /\
    u_expiry_date u = Some (demo_now + 30 * ms_per_day).
Proof.
  destruct (post_users_expiry_bounds demo_hash no_fault demo_now demo_body
              demo_db "secret" "user005" 30
              eq_refl eq_refl eq_refl eq_refl) as [Hin _].
  - intros u Hu. vm_compute in Hu.
    repeat (destruct Hu as [<-|Hu]; [vm_compute; discriminate|]).
    destruct Hu.
  - reflexivity.
  - destruct Hin as [u [E [_ [_ [Hexp _]]]]].
    + vm_compute. split; discriminate.
    + exists u. split; [exact E | exact Hexp].
Defined.

(** ** Logging in *)

Lemma first_by_name {A : Type} (name_of : A -> string) (l : list A) (a : A) :
  NoDup (map name_of l) -> In a l ->
  hd_error (filter (fun r => String.eqb (name_of r) (name_of a)) l) = Some a.
Proof.
  induction l as [|x l IH]; intros Hnd Hin; [destruct Hin|].
  cbn [map] in Hnd. inversion Hnd as [|y ys Hnot Hrest]; subst.
  cbn [filter]. destruct Hin as [->|Hin].
  - now rewrite String.eqb_refl.
  - destruct (String.eqb_spec (name_of x) (name_of a)) as [E|_].
    + exfalso. apply Hnot. rewrite E. now apply in_map.
    + now apply IH.
Qed.

Lemma first_by_name_found {A : Type} (name_of : A -> string) (l : list A)
    (n : string) (a : A) :
  hd_error (filter (fun r => String.eqb (name_of r) n) l) = Some a ->
  In a l /\ name_of a = n.
Proof.
  intros H.
  assert (Hin : In a (filter (fun r => String.eqb (name_of r) n) l)).
  { destruct (filter _ l) as [|x xs]; [discriminate|].
    injection H as ->. now left. }
  apply filter_In in Hin. destruct Hin as [Hin E].
  split; [exact Hin | now apply String.eqb_eq].
Qed.

Lemma select_admin_filter (n : string) (db : DB) :
  select_admin (Some n) db
  = hd_error (filter (fun a => String.eqb (a_username a) n) (rows (admins db))).
Proof.
  unfold select_admin, select. f_equal. apply filter_ext.
  intros a. cbn. now destruct (String.eqb (a_username a) n).
Qed.

Lemma select_user_filter (n : string) (db : DB) :
  select_user (Some n) db
  = hd_error (filter (fun u => String.eqb (u_username u) n) (rows (users db))).
Proof.
  unfold select_user, select. f_equal. apply filter_ext.
  intros u. cbn. now destruct (String.eqb (u_username u) n).
Qed.

Lemma select_admin_null (db : DB) : select_admin None db = None.
Proof.
  unfold select_admin, select. rewrite filter_none; [reflexivity|].
  intros a _. reflexivity.
Qed.

Lemma select_user_null (db : DB) : select_user None db = None.
Proof.
  unfold select_user, select. rewrite filter_none; [reflexivity|].
  intros u _. reflexivity.
Qed.

(** X13.  POST /api/auth/login never writes to the database, and on a
    consistent database it has two answers only when the lookup
    succeeds: a session for the stored admin whose username is given
    and whose password hash matches, with a token signed for that
    admin's id and username for 24 hours; otherwise 401 'Invalid
    credentials', the same answer for an unknown username, a wrong
    password and a missing field. *)
Theorem post_auth_login_outcomes :
  forall (bcrypt_compare : string -> string -> bool)
         (jwt_sign : claims -> string -> string -> string)
         (secret : string) (fault : nat -> bool) (b : login_body) (db : DB),
    consistent db ->
    fault 0%nat = false ->
    snd (post_auth_login bcrypt_compare jwt_sign secret fault b db) = db /\
    ((exists a password,
        In a (rows (admins db)) /\
        lb_username b = Some (a_username a) /\
        lb_password b = Some password /\
        bcrypt_compare password (a_password a) = true /\
        fst (post_auth_login bcrypt_compare jwt_sign secret fault b db)
        = AdminSession
            (jwt_sign (Claims (a_id a) (a_username a) None) secret "24h")
            (a_id a) (a_username a) (a_email a))
     \/
     ((forall a password,
         In a (rows (admins db)) ->
         lb_username b = Some (a_username a) ->
         lb_password b = Some password ->
         bcrypt_compare password (a_password a) = false) /\
      fst (post_auth_login bcrypt_compare jwt_sign secret fault b db)
      = Plain (Response 401 (PError "Invalid credentials")))).
Proof.
  intros bcrypt_compare jwt_sign secret fault b db Hc Hf.
  assert (Hnd : NoDup (map a_username (rows (admins db)))) by apply Hc.
  unfold post_auth_login. run_calls. rewrite Hf.
  destruct (lb_username b) as [n|].
  - rewrite select_admin_filter.
    destruct (hd_error _) as [a|] eqn:Hsel.
    + destruct (first_by_name_found a_username _ _ _ Hsel) as [Ha Hn].
      destruct (lb_password b) as [pw|]; cbn [compare_result].
      * destruct (bcrypt_compare pw (a_password a)) eqn:Hcmp.
        -- split; [reflexivity|]. left. exists a, pw. subst n.
           now repeat split.
        -- split; [reflexivity|]. right. split; [|reflexivity].
           intros a' pw' Ha' Hn' Hpw'. injection Hn' as Hn'.
           injection Hpw' as <-.
           pose proof (first_by_name a_username _ a' Hnd Ha') as Hfirst.
           rewrite <- Hn', Hsel in Hfirst. injection Hfirst as <-.
           exact Hcmp.
      * split; [reflexivity|]. right. split; [|reflexivity].
        intros a' pw' _ _ Hpw'. discriminate.
    + split; [reflexivity|]. right. split; [|reflexivity].
      intros a' pw' Ha' Hn' _. injection Hn' as Hn'.
      pose proof (first_by_name a_username _ a' Hnd Ha') as Hfirst.
      rewrite <- Hn', Hsel in Hfirst. discriminate.
  - rewrite select_admin_null. split; [reflexivity|].
    right. split; [|reflexivity]. intros a pw _ Hn. discriminate.
Qed.

Lemma post_auth_login_outcomes_witness :
  post_auth_login demo_compare demo_sign "secret" no_fault
    (LoginBody (Some "admin") (Some "admin123")) demo_db
  = (AdminSession "good.token" 1 "admin" (Some "admin@iptv.com"), demo_db) /\
  post_auth_login demo_compare demo_sign "secret" no_fault
    (LoginBody (Some "admin") (Some "letmein")) demo_db
  = post_auth_login demo_compare demo_sign "secret" no_fault
      (LoginBody (Some "nobody") (Some "admin123")) demo_db.
Proof.
  destruct (post_auth_login_outcomes demo_compare demo_sign "secret" no_fault
              (LoginBody (Some "admin") (Some "admin123")) demo_db
              consistent_demo_db eq_refl) as [Hdb _].
  split.
  - rewrite (surjective_pairing (post_auth_login _ _ _ _ _ _)), Hdb.
    reflexivity.
  - reflexivity.
Defined.

Lemma NoDup_map_same {A B : Type} (f : A -> B) (l : list A) (a b : A) :
  NoDup (map f l) -> In a l -> In b l -> f a = f b -> a = b.
Proof.
  induction l as [|x l IH]; intros Hnd Ha Hb E; [destruct Ha|].
  cbn [map] in Hnd. inversion Hnd as [|y ys Hnot Hrest]; subst.
  destruct Ha as [->|Ha], Hb as [->|Hb].
  - reflexivity.
  - exfalso. apply Hnot. rewrite E. now apply in_map.
  - exfalso. apply Hnot. rewrite <- E. now apply in_map.
  - now apply IH.
Qed.

Lemma update_one {A : Type} (id_of : A -> Z) (set : A -> A) (l : list A)
    (a : A) :
  NoDup (map id_of l) -> In a l ->
  Forall2 (fun v v' => (v = a /\ v' = set a) \/ (v <> a /\ v' = v))
          l (map (fun r => if id_of r =? id_of a then set r else r) l).
Proof.
  intros Hnd Ha.
  assert (Hall : forall v, In v l ->
            (v = a /\ (if id_of v =? id_of a then set v else v) = set a) \/
            (v <> a /\ (if id_of v =? id_of a then set v else v) = v)).
  { intros v Hv. destruct (Z.eqb_spec (id_of v) (id_of a)) as [E|N].
    - left. pose proof (NoDup_map_same id_of l v a Hnd Hv Ha E) as ->.
      now split.
    - right. split; [|reflexivity]. intros ->. now apply N. }
  clear Hnd Ha. induction l as [|x l IH]; cbn [map]; constructor.
  - apply Hall. now left.
  - apply IH. intros v Hv. apply Hall. now right.
Qed.

(** X14.  POST /api/auth/user-login for a stored subscriber with the
    right password answers with a session whatever the subscriber's
    status and expiry_date are (an expired subscriber logs in): the
    token is signed for the subscriber's id and username with type
    'user' for 7 days, status and expiry_date are echoed, and when the
    UPDATE runs the last_seen of that subscriber alone becomes the
    current second. *)
Theorem post_auth_user_login_session :
  forall (bcrypt_compare : string -> string -> bool)
         (jwt_sign : claims -> string -> string -> string)
         (secret : string) (fault : nat -> bool) (now : Z) (db : DB)
         (u : user) (password : string),
    consistent db ->
    fault 0%nat = false ->
    In u (rows (users db)) ->
    bcrypt_compare password (u_password u) = true ->
    exists db',
      post_auth_user_login bcrypt_compare jwt_sign secret fault now
        (LoginBody (Some (u_username u)) (Some password)) db
      = (UserSession
           (jwt_sign (Claims (u_id u) (u_username u) (Some "user")) secret "7d")
           (u_id u) (u_username u) (u_status u) (u_expiry_date u), db') /\
      (fault 1%nat = true -> db' = db) /\
      (fault 1%nat = false ->
       Forall2 (fun v v' => (v = u /\ v' = seen now u) \/ (v <> u /\ v' = v))
               (rows (users db)) (rows (users db'))).
Proof.
  intros bcrypt_compare jwt_sign secret fault now db u password Hc Hf Hu Hcmp.
  assert (Hnames : NoDup (map u_username (rows (users db)))) by apply Hc.
  assert (Hkeys : NoDup (map u_id (rows (users db)))) by apply Hc.
  unfold post_auth_user_login. run_calls. cbn [lb_username lb_password].
  rewrite Hf, select_user_filter, (first_by_name u_username _ u Hnames Hu).
  cbn [compare_result]. rewrite Hcmp.
  unfold touch_last_seen, update.
  destruct (fault 1%nat).
  - exists db. split; [reflexivity|]. split; [reflexivity | discriminate].
  - eexists. split; [reflexivity|]. split; [discriminate|].
    intros _. destruct db as [a p us c t]. cbn [users with_users rows].
    now apply update_one.
Qed.

Lemma post_auth_user_login_session_witness :
  exists db',
    post_auth_user_login demo_compare demo_sign "secret" no_fault
      (demo_now + 60000) (LoginBody (Some "user004") (Some "user123")) demo_db
    = (UserSession "good.token" 4 "user004" (Some "expired")
                   (Some 1699827200123), db') /\
    map u_last_seen (rows (users db'))
      = [Some 1700000000000; Some 1700000000000; Some 1700000000000;
         Some 1700000060000].
Proof.
  destruct (post_auth_user_login_session demo_compare demo_sign "secret"
              no_fault (demo_now + 60000) demo_db
              (User 4 "user004" (demo_hash "user123") (Some 1) (Some "Android")
                    (Some "expired") (Some 1699827200123)
                    (Some 1700000000000) (Some 1700000000000))
              "user123" consistent_demo_db eq_refl) as [db' [E _]].
  - vm_compute. do 3 right. now left.
  - reflexivity.
  - exists db'. split; [exact E|].
    vm_compute in E. injection E as <-. reflexivity.
Defined.

(** X15.  POST /api/auth/user-login touches nothing but last_seen:
    whatever the request and the storage do, the other four tables are
    unchanged and every user row is either unchanged or differs in
    last_seen only; when the answer is not a session the database is
    unchanged. *)
Theorem post_auth_user_login_frame :
  forall (bcrypt_compare : string -> string -> bool)
         (jwt_sign : claims -> string -> string -> string)
         (secret : string) (fault : nat -> bool) (now : Z) (b : login_body)
         (db : DB),
    admins (snd (post_auth_user_login bcrypt_compare jwt_sign secret fault now
                                      b db)) = admins db /\
    packages (snd (post_auth_user_login bcrypt_compare jwt_sign secret fault
                                        now b db)) = packages db /\
    channels (snd (post_auth_user_login bcrypt_compare jwt_sign secret fault
                                        now b db)) = channels db /\
    transactions (snd (post_auth_user_login bcrypt_compare jwt_sign secret
                                            fault now b db))
      = transactions db /\
    Forall2 (fun v v' => v' = v \/ v' = seen now v)
            (rows (users db))
            (rows (users (snd (post_auth_user_login bcrypt_compare jwt_sign
                                                    secret fault now b db)))) /\
    ((forall token id username status expiry,
        fst (post_auth_user_login bcrypt_compare jwt_sign secret fault now b db)
        <> UserSession token id username status expiry) ->
     snd (post_auth_user_login bcrypt_compare jwt_sign secret fault now b db)
     = db).
Proof.
  intros bcrypt_compare jwt_sign secret fault now b db.
  assert (Hsame : Forall2 (fun v v' : user => v' = v \/ v' = seen now v)
                          (rows (users db)) (rows (users db))).
  { induction (rows (users db)); constructor; [now left | assumption]. }
  unfold post_auth_user_login. run_calls.
  destruct (fault 0%nat); [now repeat split|].
  destruct (select_user _ _) as [u|]; [|now repeat split].
  destruct (compare_result _ _ _); [|now repeat split].
  destruct (fault 1%nat).
  - repeat split; exact Hsame.
  - unfold touch_last_seen, update. destruct db as [a p us c t].
    cbn [fst snd admins packages users channels transactions with_users rows].
    repeat split.
    + clear Hsame. induction (rows us) as [|v l IH]; cbn [map]; constructor;
        [|exact IH].
      destruct (u_id v =? u_id u); [now right | now left].
    + intros Hno. exfalso. eapply Hno. reflexivity.
Qed.

Lemma insert_subscriber_lookup (now : Z) (b : user_body) (hashed : string)
    (expiry : Z) (db db' : DB) (info : run_info) :
  insert_subscriber now b hashed expiry db = Some (db', info) ->
  exists n,
    ub_username b = Some n /\
    select_user (Some n) db'
    = Some (User (lastID info) n hashed (ub_package_id b) (ub_device b)
                 (Some "active") (Some expiry) None (Some (datetime_now now))).
Proof.
  unfold insert_subscriber, insert_user, insert.
  destruct (ub_username b) as [n|]; [|discriminate].
  destruct (existsb _ _) eqn:Hex; [discriminate|].
  intros E. injection E as <- <-. exists n. split; [reflexivity|].
  rewrite select_user_filter. destruct db as [a p us c t].
  cbn [users with_users rows lastID] in *.
  rewrite filter_app, filter_none.
  - cbn [filter app u_username]. now rewrite String.eqb_refl.
  - intros u Hu. apply Bool.not_true_iff_false. intros Ht.
    assert (Hyes : existsb (fun u => String.eqb (u_username u) n) (rows us)
                   = true).
    { apply existsb_exists. now exists u. }
    congruence.
Qed.

(** X16.  A subscriber created by POST /api/users can log in: POST
    /api/auth/user-login with the same username and password answers
    with a session for the id of the created row, status ['active'],
    and a wrong password is answered 401 'Invalid credentials'
    (provided [bcrypt.compare] accepts the hash of the password). *)
Theorem post_users_then_user_login :
  forall (bcrypt_hash : string -> string)
         (bcrypt_compare : string -> string -> bool)
         (jwt_sign : claims -> string -> string -> string)
         (secret : string) (fault fault' : nat -> bool) (now later : Z)
         (b : user_body) (db db1 : DB) (id : Z) (username : option string)
         (package_id : option Z) (device : option string) (status : string)
         (password : string),
    post_users bcrypt_hash fault now b db
      = (Response 200 (PUserCreated id username package_id device status),
         db1) ->
    ub_password b = Some password ->
    bcrypt_compare password (bcrypt_hash password) = true ->
    fault' 0%nat = false ->
    exists n expiry,
      username = Some n /\
      fst (post_auth_user_login bcrypt_compare jwt_sign secret fault' later
             (LoginBody username (Some password)) db1)
      = UserSession (jwt_sign (Claims id n (Some "user")) secret "7d")
                    id n (Some "active") (Some expiry) /\
      forall wrong,
        bcrypt_compare wrong (bcrypt_hash password) = false ->
        post_auth_user_login bcrypt_compare jwt_sign secret fault' later
          (LoginBody username (Some wrong)) db1
        = (Plain (Response 401 (PError "Invalid credentials")), db1).
Proof.
  intros bcrypt_hash bcrypt_compare jwt_sign secret fault fault' now later b
    db db1 id un pid dev st pw Hpost Hpw Hcmp Hf'.
  apply post_users_created in Hpost.
  destruct Hpost as [pw0 [d [e [info [Hpw0 [_ [_ [Hins Hbody]]]]]]]].
  rewrite Hpw in Hpw0. injection Hpw0 as <-.
  injection Hbody as -> -> _ _ _.
  destruct (insert_subscriber_lookup _ _ _ _ _ _ _ Hins) as [n [Hn Hsel]].
  exists n, e. split; [exact Hn|]. rewrite Hn.
  unfold post_auth_user_login. run_calls. cbn [lb_username lb_password].
  rewrite Hf', Hsel. cbn [compare_result u_password]. split.
  - rewrite Hcmp. cbn [u_id u_username u_status u_expiry_date].
    destruct (fault' 1%nat); [reflexivity|].
    now destruct (touch_last_seen _ _ _) as [[db2 info2]|].
  - intros wrong Hwrong. now rewrite Hwrong.
Qed.

Lemma post_users_then_user_login_witness :
  fst (post_auth_user_login demo_compare demo_sign "secret" no_fault
         (demo_now + 60000) (LoginBody (Some "user005") (Some "secret"))
         demo_db_after_create)
  = UserSession "good.token" 5 "user005" (Some "active")
                (Some (demo_now + 30 * ms_per_day)).
Proof.
  destruct (post_users_then_user_login demo_hash demo_compare demo_sign
              "secret" no_fault no_fault demo_now (demo_now + 60000)
              demo_body demo_db demo_db_after_create 5 (Some "user005")
              (Some 1) (Some "Roku") "active" "secret"
              eq_refl eq_refl eq_refl eq_refl) as [n [e [Hn [Hlogin _]]]].
  injection Hn as <-. rewrite Hlogin. vm_compute in Hlogin.
  injection Hlogin as <-. reflexivity.
Defined.

(** ** From login to the guard *)

(** X17.  The token handed out by POST /api/auth/login opens the
    protected routes: sent back as [Authorization: Bearer <token>] it
    passes [authenticateToken], which attaches the admin's id and
    username to the request (provided that, for the stored admins,
    [jwt.verify] returns the claims that [jwt.sign] signed and the
    token is a non-empty string without spaces). *)
Theorem login_token_passes_guard :
  forall (bcrypt_compare : string -> string -> bool)
         (jwt_sign : claims -> string -> string -> string)
         (jwt_verify : string -> string -> jwt_error + claims)
         (secret : string) (fault : nat -> bool) (b : login_body) (db db' : DB)
         (token : string) (id : Z) (username : string) (email : option string)
         (next : request -> handler),
    (forall a,
       In a (rows (admins db)) ->
       jwt_verify (jwt_sign (Claims (a_id a) (a_username a) None) secret "24h")
                  secret
       = inr (Claims (a_id a) (a_username a) None) /\
       jwt_sign (Claims (a_id a) (a_username a) None) secret "24h"
       <> EmptyString /\
       forall c,
         In c (list_ascii_of_string
                 (jwt_sign (Claims (a_id a) (a_username a) None) secret "24h")) ->
         c <> " "%char) ->
    post_auth_login bcrypt_compare jwt_sign secret fault b db
      = (AdminSession token id username email, db') ->
    authenticateToken jwt_verify secret
      (Request (Some ("Bearer " ++ token)%string) None) next db'
    = next (Request (Some ("Bearer " ++ token)%string)
                    (Some (Claims id username None))) db'.
Proof.
  intros bcrypt_compare jwt_sign jwt_verify secret fault b db db' token id
    username email next Hjwt.
  unfold post_auth_login. run_calls.
  destruct (fault 0%nat); [discriminate|].
  destruct (select_admin _ _) as [a|] eqn:Hsel; [|discriminate].
  destruct (compare_result _ _ _); [|discriminate].
  intros E. injection E as <- <- <- _ <-.
  assert (Ha : In a (rows (admins db))).
  { unfold select_admin, select in Hsel.
    destruct (filter _ (rows (admins db))) as [|x xs] eqn:Hf; [discriminate|].
    injection Hsel as ->.
    assert (Hin : In a (a :: xs)) by now left.
    rewrite <- Hf in Hin. now apply filter_In in Hin. }
  destruct (Hjwt a Ha) as [Hverify [Hne Hno]].
  unfold authenticateToken. cbn [authorization].
  rewrite split_bearer, (split_no_separator _ _ Hno).
  cbn [nth_error truthy append].
  destruct (jwt_sign _ secret "24h") as [|c s] eqn:Htok; [contradiction|].
  now rewrite Hverify.
Qed.

Lemma login_token_passes_guard_witness :
  authenticateToken demo_verify "secret"
    (Request (Some "Bearer good.token") None) (fun _ => get_packages no_fault)
    demo_db
  = get_packages no_fault demo_db.
Proof.
  apply (login_token_passes_guard demo_compare demo_sign demo_verify
           "secret" no_fault (LoginBody (Some "admin") (Some "admin123"))
           demo_db demo_db "good.token" 1 "admin" (Some "admin@iptv.com")
           (fun _ => get_packages no_fault)).
  - intros a Ha. vm_compute in Ha. destruct Ha as [<-|[]].
    split; [reflexivity | split; [discriminate|]].
    intros c Hc. cbn in Hc.
    repeat (destruct Hc as [<-|Hc]; [discriminate|]). destruct Hc.
  - reflexivity.
Defined.

(** ** Dashboard figures *)

Lemma filter_all {A : Type} (table_rows : list A) :
  table_rows = filter (fun _ => true) table_rows.
Proof.
  induction table_rows as [|a l IH]; [reflexivity | cbn; now rewrite <- IH].
Qed.

Lemma or_zero_same (n : Z) : or_zero n = n.
Proof. unfold or_zero. destruct (Z.eqb_spec n 0); congruence. Qed.

Lemma get_stats_value (fault : nat -> bool) (sum_real : list double -> double)
    (now : Z) (db : DB) :
  (forall n, (n < 6)%nat -> fault n = false) ->
  get_stats fault sum_real now db
  = (Response 200
       (PStats
          (Stats
             (or_zero_real
                (sql_sum sum_real
                   (map t_amount (select completed (transactions db)))))
             (or_zero_real
                (sql_sum sum_real
                   (map t_amount
                      (select
                         (fun t =>
                            and3 (completed t)
                                 (eq_int (option_map date_of (t_created_at t))
                                         (Some (date_of now))))
                         (transactions db)))))
             (count (fun u => eq_text (u_status u) (Some "active"))
                    (rows (users db)))
             (count (fun u => ge_int (option_map date_of (u_created_at u))
                                     (Some (date_of now - 7)))
                    (rows (users db)))
             (count (fun _ => Some true) (rows (channels db)))
             (count (fun _ => Some true) (rows (packages db))))), db).
Proof.
  intros Hf. unfold get_stats. run_calls.
  rewrite !Hf by lia. now rewrite !or_zero_same.
Qed.

(** X18.  When its six queries succeed, GET /api/dashboard/stats
    answers 200 and stores nothing; activeUsers is the number of users
    whose status is ['active'], totalChannels and totalPackages are the
    numbers of rows of the two tables, and with no transaction stored
    both revenues are 0. *)
Theorem get_stats_figures :
  forall (fault : nat -> bool) (sum_real : list double -> double) (now : Z)
         (db : DB),
    (forall n, (n < 6)%nat -> fault n = false) ->
    exists s,
      get_stats fault sum_real now db = (Response 200 (PStats s), db) /\
      activeUsers s
        = Z.of_nat (List.length
                      (filter (fun u => match u_status u with
                                        | Some st => String.eqb st "active"
                                        | None => false
                                        end)
                              (rows (users db)))) /\
      totalChannels s = Z.of_nat (List.length (rows (channels db))) /\
      totalPackages s = Z.of_nat (List.length (rows (packages db))) /\
      (rows (transactions db) = [] ->
       totalRevenue s = double_of_int 0 /\
       todayRevenue s = double_of_int 0).
Proof.
  intros fault sum_real now db Hf. eexists.
  split; [apply (get_stats_value _ _ _ _ Hf)|].
  cbn [activeUsers totalChannels totalPackages totalRevenue todayRevenue].
  rewrite !count_filter. repeat split.
  - do 2 f_equal. apply filter_ext. intros u. unfold eq_text.
    destruct (u_status u) as [st|]; [|reflexivity].
    cbn. now destruct (String.eqb st "active").
  - do 2 f_equal. symmetry. exact (filter_all (rows (channels db))).
  - do 2 f_equal. symmetry. exact (filter_all (rows (packages db))).
  - unfold select. rewrite H. reflexivity.
  - unfold select. rewrite H. reflexivity.
Qed.

Lemma get_stats_figures_witness :
  get_stats no_fault plain_sum demo_now demo_db
  = (Response 200
       (PStats (Stats (double_of_int 0) (double_of_int 0) 3 4 0 3)), demo_db).
Proof.
  destruct (get_stats_figures no_fault plain_sum demo_now demo_db
              (fun _ _ => eq_refl)) as [s [E _]].
  rewrite E. vm_compute in E. injection E as <-. reflexivity.
Defined.

(** ** ORDER BY *)

Section SortFacts.
Context {A : Type} (key : A -> option Z).

Lemma before_total (a b : A) :
  before key a b = false -> before key b a = true.
Proof.
  unfold before. destruct (key a) as [x|], (key b) as [y|];
    try discriminate; try reflexivity.
  intros H. apply Z.leb_gt in H. apply Z.leb_le. lia.
Qed.

Lemma before_trans (a b c : A) :
  before key a b = true -> before key b c = true -> before key a c = true.
Proof.
  unfold before. destruct (key a) as [x|], (key b) as [y|], (key c) as [z|];
    try discriminate; try reflexivity.
  intros H1 H2. apply Z.leb_le in H1, H2. apply Z.leb_le. lia.
Qed.

Lemma place_Permutation (a : A) (l : list A) :
  Permutation (a :: l) (place key a l).
Proof.
  induction l as [|b l IH]; cbn [place]; [reflexivity|].
  destruct (before key a b); [reflexivity|].
  rewrite perm_swap. now constructor.
Qed.

Lemma order_by_desc_Permutation (l : list A) :
  Permutation l (order_by_desc key l).
Proof.
  unfold order_by_desc. induction l as [|a l IH]; cbn [fold_right];
    [reflexivity|].
  rewrite <- place_Permutation. now constructor.
Qed.

Lemma place_sorted (a : A) (l : list A) :
  StronglySorted (desc key) l -> StronglySorted (desc key) (place key a l).
Proof.
  induction l as [|b l IH]; intros Hs; cbn [place].
  - repeat constructor.
  - inversion Hs as [|x xs Hrest Hall]; subst.
    destruct (before key a b) eqn:E.
    + constructor; [exact Hs|]. constructor; [exact E|].
      rewrite Forall_forall in *. intros c Hc.
      exact (before_trans a b c E (Hall c Hc)).
    + constructor; [now apply IH|].
      rewrite Forall_forall in *. intros c Hc.
      apply place_In in Hc. destruct Hc as [->|Hc];
        [now apply before_total | now apply Hall].
Qed.

Lemma order_by_desc_sorted (l : list A) :
  StronglySorted (desc key) (order_by_desc key l).
Proof.
  unfold order_by_desc. induction l as [|a l IH]; cbn [fold_right];
    [constructor | now apply place_sorted].
Qed.
End SortFacts.

(** X20.  GET /api/dashboard/activity shows the ten most recently seen
    subscribers, most recent first, never-seen ones last: the users
    split into the shown ones and the rest so that the whole sequence
    is in descending order of last_seen (NULL last), and the shown ones
    are ten, or all users when fewer are stored. *)
Theorem get_activity_most_recent :
  forall (fault : nat -> bool) (now : Z) (db : DB),
    fault 0%nat = false ->
    exists shown rest,
      get_activity fault now db
        = (Response 200 (PActivity (map (activity_of now) shown)), db) /\
      Permutation (rows (users db)) (shown ++ rest) /\
      StronglySorted (desc u_last_seen) (shown ++ rest) /\
      List.length shown = Nat.min 10 (List.length (rows (users db))).
Proof.
  intros fault now db Hf.
  set (sorted := order_by_desc u_last_seen (rows (users db))).
  exists (firstn 10 sorted), (skipn 10 sorted).
  rewrite firstn_skipn. split; [|split; [|split]].
  - unfold get_activity. run_calls. now rewrite Hf.
  - apply order_by_desc_Permutation.
  - apply order_by_desc_sorted.
  - rewrite length_firstn. f_equal. symmetry.
    apply Permutation_length, order_by_desc_Permutation.
Qed.

Lemma get_activity_most_recent_witness :
  exists shown rest,
    get_activity no_fault demo_now demo_db_after_create
      = (Response 200 (PActivity (map (activity_of demo_now) shown)),
         demo_db_after_create) /\
    Permutation (rows (users demo_db_after_create)) (shown ++ rest) /\
    List.length shown = 5%nat.
Proof.
  destruct (get_activity_most_recent no_fault demo_now demo_db_after_create
              eq_refl) as [shown [rest [E [P [_ Hlen]]]]].
  exists shown, rest. split; [exact E|]. split; [exact P | exact Hlen].
Defined.

(** ** The user list *)

Lemma lookup_by_key {A : Type} (id_of : A -> Z) (k : Z) (l : list A) :
  NoDup (map id_of l) ->
  filter (fun r => id_of r =? k) l
  = match find (fun r => id_of r =? k) l with
    | Some r => [r]
    | None => []
    end.
Proof.
  induction l as [|x l IH]; intros Hnd; [reflexivity|].
  cbn [map] in Hnd. inversion Hnd as [|y ys Hnot Hrest]; subst.
  cbn [filter find]. destruct (Z.eqb_spec (id_of x) k) as [E|_].
  - f_equal. apply filter_none. intros r Hr. apply Z.eqb_neq. intros E'.
    apply Hnot. rewrite E, <- E'. now apply in_map.
  - now apply IH.
Qed.

Lemma left_join_one (ps : list package) (u : user) :
  NoDup (map p_id ps) ->
  left_join ps u = [user_row_of u (package_name_of ps u)].
Proof.
  intros Hnd. unfold left_join, package_name_of.
  destruct (u_package_id u) as [k|].
  - replace (filter (fun p => holds (eq_int (Some k) (Some (p_id p)))) ps)
      with (filter (fun p => p_id p =? k) ps).
    + rewrite (lookup_by_key p_id k ps Hnd).
      now destruct (find _ ps).
    + apply filter_ext. intros p. cbn. rewrite (Z.eqb_sym k).
      now destruct (p_id p =? k).
  - rewrite filter_none; [reflexivity | intros p _; reflexivity].
Qed.

(** X21.  On a consistent database GET /api/users lists every user
    exactly once, newest first (descending created_at), with the name
    of the package the user references, and with a null name when the
    user has no package or references a package that does not exist. *)
Theorem get_users_one_row_each :
  forall (fault : nat -> bool) (db : DB),
    consistent db ->
    fault 0%nat = false ->
    exists l,
      get_users fault db = (Response 200 (PUsers l), db) /\
      Permutation l
        (map (fun u => user_row_of u (package_name_of (rows (packages db)) u))
             (rows (users db))) /\
      StronglySorted (desc ur_created_at) l.
Proof.
  intros fault db Hc Hf. exists (select_users db). split; [|split].
  - unfold get_users. run_calls. now rewrite Hf.
  - unfold select_users. rewrite <- order_by_desc_Permutation.
    assert (Hnd : NoDup (map p_id (rows (packages db)))) by apply Hc.
    induction (rows (users db)) as [|u us IH]; [reflexivity|].
    cbn [flat_map map]. rewrite (left_join_one _ u Hnd). cbn [app].
    now constructor.
  - apply order_by_desc_sorted.
Qed.

Lemma get_users_one_row_each_witness :
  exists l,
    get_users no_fault demo_db = (Response 200 (PUsers l), demo_db) /\
    map ur_package_name l
      = [Some "Basic Plan"; Some "Premium Plan"; Some "VIP Plan";
         Some "Basic Plan"].
Proof.
  destruct (get_users_one_row_each no_fault demo_db consistent_demo_db eq_refl)
    as [l [E _]].
  exists l. split; [exact E|].
  vm_compute in E. injection E as <-. reflexivity.
Defined.

(** ** Channels *)

(** X22.  A channel created by POST /api/channels for a package is
    listed by the public GET /api/channels/:packageId of that package,
    with the id of the answer and the values of the body; that list
    holds exactly the stored channels whose package_id is the given
    one, so a channel without package is listed for no package. *)
Theorem post_channels_then_list :
  forall (fault fault' : nat -> bool) (now : Z) (b : channel_body) (db : DB)
         (name url : string) (packageId : Z),
    fault 0%nat = false -> fault' 0%nat = false ->
    cb_name b = Some name -> cb_url b = Some url ->
    cb_package_id b = Some packageId ->
    exists id db' l,
      post_channels fault now b db
        = (ChannelCreated id (Some name) (Some url) (cb_logo b)
                          (cb_category b) (Some packageId), db') /\
      get_channels fault' packageId db' = (Response 200 (PChannels l), db') /\
      In (Channel id name url (cb_logo b) (cb_category b) (Some packageId)
                  (Some (datetime_now now))) l /\
      (forall c, In c l <->
                 In c (rows (channels db')) /\
                 ch_package_id c = Some packageId).
Proof.
  intros fault fault' now b db name url pid Hf Hf' Hn Hu Hp.
  set (mk := fun k => Channel k name url (cb_logo b) (cb_category b)
                              (Some pid) (Some (datetime_now now))).
  exists (next_rowid ch_id (channels db)).
  exists (with_channels (fst (insert ch_id mk (channels db))) db).
  eexists. split; [|split; [|split]].
  - unfold post_channels, insert_channel. run_calls.
    rewrite Hf, Hn, Hu, Hp. reflexivity.
  - unfold get_channels. run_calls. rewrite Hf'. reflexivity.
  - unfold select. apply filter_In. split.
    + destruct db as [a p us c t]. cbn [channels with_channels fst insert rows].
      apply in_or_app. right. now left.
    + cbn. now rewrite Z.eqb_refl.
  - intros c. unfold select. rewrite filter_In.
    split; intros [Hin Hc]; (split; [exact Hin|]).
    + destruct (ch_package_id c) as [k|]; [|discriminate]. cbn in Hc.
      destruct (Z.eqb_spec k pid); [congruence | discriminate].
    + rewrite Hc. cbn. now rewrite Z.eqb_refl.
Qed.

Lemma post_channels_then_list_witness :
  exists db',
    post_channels no_fault demo_now demo_channel_body demo_db
      = (ChannelCreated 1 (Some "News 24")
           (Some "http://example.test/news.m3u8") None (Some "news") (Some 2),
         db') /\
    fst (get_channels no_fault 2 db')
      = Response 200
          (PChannels [Channel 1 "News 24" "http://example.test/news.m3u8" None
                              (Some "news") (Some 2) (Some 1700000000000)]) /\
    fst (get_channels no_fault 1 db') = Response 200 (PChannels []).
Proof.
  destruct (post_channels_then_list no_fault no_fault demo_now
              demo_channel_body demo_db "News 24"
              "http://example.test/news.m3u8" 2
              eq_refl eq_refl eq_refl eq_refl eq_refl)
    as [id [db' [l [E _]]]].
  assert (Hid : id = 1) by (vm_compute in E; now injection E as <- _).
  subst id. exists db'. split; [exact E|].
  vm_compute in E. injection E as <-. split; reflexivity.
Defined.

(** X23.  Creating a channel and deleting it by the id of the answer
    gives back the channel rows that were stored before, and leaves
    the other tables as they were; the id stays used, the sequence of
    the table is the deleted id. *)
Theorem post_channels_then_delete :
  forall (fault fault' : nat -> bool) (now : Z) (b : channel_body) (db : DB)
         (name url : string),
    fault 0%nat = false -> fault' 0%nat = false ->
    cb_name b = Some name -> cb_url b = Some url ->
    exists id db1 db2,
      post_channels fault now b db
        = (ChannelCreated id (Some name) (Some url) (cb_logo b)
                          (cb_category b) (cb_package_id b), db1) /\
      delete_channels fault' id db1
        = (Response 200 (PMessage "Channel deleted successfully"), db2) /\
      rows (channels db2) = rows (channels db) /\
      seq (channels db2) = id /\
      (forall c, In c (rows (channels db)) -> ch_id c < id) /\
      admins db2 = admins db /\ packages db2 = packages db /\
      users db2 = users db /\ transactions db2 = transactions db.
Proof.
  intros fault fault' now b db name url Hf Hf' Hn Hu.
  set (mk := fun k => Channel k name url (cb_logo b) (cb_category b)
                              (cb_package_id b) (Some (datetime_now now))).
  exists (next_rowid ch_id (channels db)).
  exists (with_channels (fst (insert ch_id mk (channels db))) db).
  exists (with_channels
            (fst (delete ch_id (snd (insert ch_id mk (channels db)))
                         (fst (insert ch_id mk (channels db))))) db).
  destruct (delete_inserted ch_id mk (channels db) (fun _ => eq_refl))
    as [Hrows _].
  split; [|split; [|split; [|split; [|split]]]].
  - unfold post_channels, insert_channel. run_calls.
    rewrite Hf, Hn, Hu. reflexivity.
  - unfold delete_channels, delete_channel. run_calls. rewrite Hf'.
    destruct db as [a p us c t]. reflexivity.
  - destruct db as [a p us c t].
    cbn [channels with_channels] in *. exact Hrows.
  - destruct db as [a p us c t]. reflexivity.
  - intros c. apply next_rowid_fresh.
  - now destruct db.
Qed.

Lemma post_channels_then_delete_witness :
  exists db1 db2,
    post_channels no_fault demo_now demo_channel_body demo_db
      = (ChannelCreated 1 (Some "News 24")
           (Some "http://example.test/news.m3u8") None (Some "news") (Some 2),
         db1) /\
    delete_channels no_fault 1 db1
      = (Response 200 (PMessage "Channel deleted successfully"), db2) /\
    rows (channels db2) = [] /\ seq (channels db2) = 1.
Proof.
  destruct (post_channels_then_delete no_fault no_fault demo_now
              demo_channel_body demo_db "News 24"
              "http://example.test/news.m3u8"
              eq_refl eq_refl eq_refl eq_refl)
    as [id [db1 [db2 [E [D [Hrows [Hseq _]]]]]]].
  assert (Hid : id = 1) by (vm_compute in E; now injection E as <- _).
  rewrite Hid in E, D, Hseq. exists db1, db2.
  split; [exact E|]. split; [exact D|]. split; [exact Hrows | exact Hseq].
Defined.

(** ** The guard and the shape of the header *)

(** X24.  [authenticateToken] looks at the second space-separated word
    of the Authorization header and nothing else.  A header that is a
    single word (a bare token, or [Bearer] alone) is answered 401
    'Access token required'; a header [<word> <token>] is treated the
    same whatever the first word is ([Bearer] is not required): the
    token goes to [jwt.verify], an error gives 403 and success
    continues with the claims attached. *)
Theorem authenticateToken_header_shape :
  forall (jwt_verify : string -> string -> jwt_error + claims)
         (secret : string) (next : request -> handler) (db : DB),
    (forall h user,
       (forall a, In a (list_ascii_of_string h) -> a <> " "%char) ->
       authenticateToken jwt_verify secret (Request (Some h) user) next db
       = (Response 401 (PError "Access token required"), db)) /\
    (forall word token user,
       (forall a, In a (list_ascii_of_string word) -> a <> " "%char) ->
       (forall a, In a (list_ascii_of_string token) -> a <> " "%char) ->
       token <> EmptyString ->
       authenticateToken jwt_verify secret
         (Request (Some (word ++ String " " token)%string) user) next db
       = match jwt_verify token secret with
         | inl _ => (Response 403 (PError "Invalid or expired token"), db)
         | inr c =>
             next (Request (Some (word ++ String " " token)%string) (Some c))
                  db
         end).
Proof.
  intros jwt_verify secret next db. split.
  - intros h user Hno. unfold authenticateToken. cbn [authorization].
    rewrite (split_no_separator _ _ Hno). cbn [nth_error].
    now destruct h.
  - intros word token user Hw Ht Hne.
    unfold authenticateToken. cbn [authorization].
    rewrite (split_word _ _ Hw), (split_no_separator _ _ Ht).
    cbn [nth_error].
    assert (Htruthy : truthy (Some (word ++ String " " token)%string) = true).
    { now destruct word. }
    rewrite Htruthy. destruct token as [|c s]; [contradiction|].
    cbn [truthy]. now destruct (jwt_verify (String c s) secret).
Qed.

Lemma authenticateToken_header_shape_witness :
  authenticateToken demo_verify "secret"
    (Request (Some "good.token") None) (fun _ => get_packages no_fault) demo_db
  = (Response 401 (PError "Access token required"), demo_db) /\
  authenticateToken demo_verify "secret"
    (Request (Some "Basic good.token") None) (fun _ => get_packages no_fault)
    demo_db
  = get_packages no_fault demo_db.
Proof.
  destruct (authenticateToken_header_shape demo_verify "secret"
              (fun _ => get_packages no_fault) demo_db) as [H1 H2].
  split.
  - apply H1. intros a Ha. cbn in Ha.
    repeat (destruct Ha as [<-|Ha]; [discriminate|]). destruct Ha.
  - apply (H2 "Basic"%string "good.token"%string None).
    + intros a Ha. cbn in Ha.
      repeat (destruct Ha as [<-|Ha]; [discriminate|]). destruct Ha.
    + intros a Ha. cbn in Ha.
      repeat (destruct Ha as [<-|Ha]; [discriminate|]). destruct Ha.
    + discriminate.
Defined.
